(** * CryptoTableMaker: a shallow embedding of [main.py]

    The program fetches the CoinMarketCap listing, projects and relabels
    the columns the user ticked, filters the rows either by a row count
    or by the identifiers of the ticker symbols the user typed, and
    offers the result as an HTML table and two CSV downloads.

    The embedding keeps the shape of the source:
    - Python objects decoded from JSON are the inductive [pyobj];
    - a pandas frame is a record of column labels and labelled rows;
    - the functions of [main.py] run in a small monad [IO] that threads
      the heap of Python lists (the column selection is mutated in
      place) and the trace of what the program sends and displays, and
      that ends either in a value or in a Python exception;
    - the provider and the library routines whose text is not part of
      the repository ([json.loads], [pandas.json_normalize],
      [DataFrame.to_html], the text pandas gives to a cell) are
      Variables of the sections that use them.

    A Python [str] is a [string] whose characters are read as the code
    points below 256. *)

From Stdlib Require Import ZArith String Ascii List Lia DecimalString.
From Stdlib Require DecimalPos.
From Corelib Require SpecFloat.
From stdpp Require Import base list strings gmap.

Open Scope Z_scope.

#[local] Set Warnings "-register-all".

(** ** Python values and exceptions *)

Module Py.

(** What [json.loads] builds, and what a frame cell holds.  A float is
    the binary64 value that [SpecFloat] describes.  [PNaN] is the
    missing value of pandas. *)
Inductive pyobj : Type :=
| PNone
| PNaN
| PBool (b : bool)
| PInt (z : Z)
| PFloat (f : SpecFloat.spec_float)
| PStr (s : string)
| PList (xs : list pyobj)
| PDict (kvs : list (string * pyobj)).

(** The value of a number: [m * 2^e], an infinity, or no number. *)
Inductive number : Type :=
| Dyadic (m e : Z)
| Infinite (negative : bool)
| NotANumber.

Definition number_of_float (f : SpecFloat.spec_float) : number :=
  match f with
  | SpecFloat.S754_zero _ => Dyadic 0 0
  | SpecFloat.S754_infinity s => Infinite s
  | SpecFloat.S754_nan => NotANumber
  | SpecFloat.S754_finite s m e => Dyadic (SpecFloat.cond_Zopp s (Z.pos m)) e
  end.

(** The numbers among the values: [True] is 1 and [False] is 0. *)
Definition number_of (v : pyobj) : option number :=
  match v with
  | PNaN => Some NotANumber
  | PBool b => Some (Dyadic (if b then 1 else 0) 0)
  | PInt z => Some (Dyadic z 0)
  | PFloat f => Some (number_of_float f)
  | _ => None
  end.

Definition number_eqb (x y : number) : bool :=
  match x, y with
  | Dyadic m1 e1, Dyadic m2 e2 =>
      if e1 <=? e2 then m1 =? m2 * 2 ^ (e2 - e1) else m1 * 2 ^ (e1 - e2) =? m2
  | Infinite s1, Infinite s2 => Bool.eqb s1 s2
  | NotANumber, NotANumber => true
  | _, _ => false
  end.

(** Equality of two values, as membership tests on a column use it:
    numbers are compared by value whatever their types, so that [1],
    [1.0] and [True] are equal, and the missing value matches itself. *)
Fixpoint py_eqb (a b : pyobj) {struct a} : bool :=
  match a, b with
  | PNone, PNone => true
  | PStr x, PStr y => String.eqb x y
  | PList xs, PList ys =>
      (fix go (l1 l2 : list pyobj) {struct l1} : bool :=
         match l1, l2 with
         | [], [] => true
         | x :: l1', y :: l2' => py_eqb x y && go l1' l2'
         | _, _ => false
         end) xs ys
  | PDict xs, PDict ys =>
      (fix go (l1 l2 : list (string * pyobj)) {struct l1} : bool :=
         match l1, l2 with
         | [], [] => true
         | (k1, x) :: l1', (k2, y) :: l2' =>
             String.eqb k1 k2 && py_eqb x y && go l1' l2'
         | _, _ => false
         end) xs ys
  | _, _ =>
      match number_of a, number_of b with
      | Some x, Some y => number_eqb x y
      | _, _ => false
      end
  end.

(** The exceptions the program can meet.  The first three are the
    classes of [requests.exceptions] that [main.py] imports and names in
    its [except] clauses; [RequestException] stands for every other
    failure of [Session.get].  [Unmodelled] is no Python exception: it
    marks a state that no run of the program reaches (a reference to no
    list object) and an input that a small world does not describe. *)
Inductive exn : Type :=
| ConnectionError
| Timeout
| TooManyRedirects
| RequestException
| JSONDecodeError
| KeyError (key : pyobj)
| TypeError
| ValueError
| UnboundLocalError (name : string)
| Unmodelled (what : string).

Inductive result (A : Type) : Type :=
| Ok (a : A)
| Raise (e : exn).
Arguments Ok {A} a.
Arguments Raise {A} e.

Definition result_bind {A B} (r : result A) (k : A -> result B) : result B :=
  match r with
  | Ok a => k a
  | Raise e => Raise e
  end.

(** [obj[key]] for a string key. *)
Definition getitem_str (obj : pyobj) (key : string) : result pyobj :=
  match obj with
  | PDict kvs =>
      match List.find (fun kv => String.eqb (fst kv) key) kvs with
      | Some kv => Ok (snd kv)
      | None => Raise (KeyError (PStr key))
      end
  | _ => Raise TypeError
  end.

(** [len(obj)]. *)
Definition len (obj : pyobj) : result nat :=
  match obj with
  | PList xs => Ok (length xs)
  | PDict kvs => Ok (length kvs)
  | PStr s => Ok (String.length s)
  | _ => Raise TypeError
  end.

(** [obj[i]] for [i] taken from [range(0, len(obj))]. *)
Definition getitem_int (obj : pyobj) (i : nat) : result pyobj :=
  match obj with
  | PList xs =>
      match nth_error xs i with
      | Some x => Ok x
      | None => Raise (KeyError (PInt (Z.of_nat i)))
      end
  | PDict _ => Raise (KeyError (PInt (Z.of_nat i)))
  | PStr s =>
      match String.get i s with
      | Some c => Ok (PStr (String c EmptyString))
      | None => Raise (KeyError (PInt (Z.of_nat i)))
      end
  | _ => Raise TypeError
  end.

(** *** Strings *)

(** [s.replace(c, '')] for a one-character [c]. *)
Fixpoint str_remove (c : ascii) (s : string) : string :=
  match s with
  | EmptyString => EmptyString
  | String x s' =>
      if Ascii.eqb x c then str_remove c s' else String x (str_remove c s')
  end.

Definition is_decimal (c : ascii) : bool :=
  let n := N_of_ascii c in (48 <=? n)%N && (n <=? 57)%N.

(** The characters below 256 that [str.isdigit] accepts: the ten decimal
    digits and the superscripts two, three and one. *)
Definition isdigit_char (c : ascii) : bool :=
  is_decimal c ||
  let n := N_of_ascii c in (n =? 178)%N || (n =? 179)%N || (n =? 185)%N.

Fixpoint all_chars (p : ascii -> bool) (s : string) : bool :=
  match s with
  | EmptyString => true
  | String c s' => p c && all_chars p s'
  end.

(** [s.isdigit()]: no character fails the test and there is at least one. *)
Definition isdigit (s : string) : bool :=
  match s with
  | EmptyString => false
  | _ => all_chars isdigit_char s
  end.

Fixpoint int_digits (acc : Z) (s : string) : Z :=
  match s with
  | EmptyString => acc
  | String c s' => int_digits (10 * acc + (Z.of_N (N_of_ascii c) - 48)) s'
  end.

(** The most digits [int] agrees to convert: the default of
    [sys.get_int_max_str_digits()]. *)
Definition max_str_digits : nat := 4300.

(** [int(s)] on a string for which [isdigit] holds: base ten, and
    [ValueError] on a superscript digit or on too many digits. *)
Definition int (s : string) : result Z :=
  if all_chars is_decimal s && (String.length s <=? max_str_digits)%nat
  then Ok (int_digits 0 s)
  else Raise ValueError.

(** [str(z)] for an integer. *)
Definition str_int (z : Z) : string := NilZero.string_of_int (Z.to_int z).

(** [s.encode('utf-8')] for code points below 256. *)
Definition utf8_char (c : ascii) : list Byte.byte :=
  let n := N_of_ascii c in
  if (n <? 128)%N then [byte_of_ascii c]
  else [byte_of_ascii (ascii_of_N (192 + n / 64));
        byte_of_ascii (ascii_of_N (128 + n mod 64))].

Fixpoint encode_utf8 (s : string) : list Byte.byte :=
  match s with
  | EmptyString => []
  | String c s' => utf8_char c ++ encode_utf8 s'
  end.

(** [bs.decode('utf-8')], for the same code points; [None] stands for
    every other input. *)
Fixpoint decode_utf8 (bs : list Byte.byte) : option string :=
  match bs with
  | [] => Some EmptyString
  | b :: bs' =>
      let n := Byte.to_N b in
      if (n <? 128)%N
      then option_map (String (ascii_of_byte b)) (decode_utf8 bs')
      else if (n =? 194)%N || (n =? 195)%N
      then match bs' with
           | b2 :: bs'' =>
               let m := Byte.to_N b2 in
               if (128 <=? m)%N && (m <? 192)%N
               then option_map
                      (String (ascii_of_N ((n - 192) * 64 + (m - 128))))
                      (decode_utf8 bs'')
               else None
           | [] => None
           end
      else None
  end.

End Py.
Export Py.

(** ** The pandas operations the program calls *)

Module Pandas.

(** A row of a frame: its index label and one cell per column. *)
Record row : Type := Row { label : Z; cells : list pyobj }.

(** A frame: the column labels, left to right, and the rows, top to
    bottom.  Labels may repeat. *)
Record DataFrame : Type := Frame { columns : list string; rows : list row }.

(** The positions of the columns labelled [l], left to right. *)
Fixpoint positions_from (i : nat) (l : string) (cols : list string) : list nat :=
  match cols with
  | [] => []
  | c :: cols' =>
      if String.eqb c l then i :: positions_from (S i) l cols'
      else positions_from (S i) l cols'
  end.

Definition positions (l : string) (cols : list string) : list nat :=
  positions_from 0 l cols.

Definition absent (cols : list string) (k : string) : bool :=
  match positions k cols with
  | [] => true
  | _ => false
  end.

(** The indexer of a list of keys: every position of every key, in the
    order of the keys; [KeyError] when some key labels no column. *)
Definition get_indexer (keys cols : list string) : result (list nat) :=
  match List.filter (absent cols) keys with
  | [] => Ok (concat (map (fun k => positions k cols) keys))
  | missing => Raise (KeyError (PList (map PStr missing)))
  end.

Definition take_cells (ix : list nat) (cs : list pyobj) : list pyobj :=
  map (fun i => nth i cs PNaN) ix.

(** [df.take(ix, axis=1)]: a new frame made of the columns at [ix]. *)
Definition take_columns (ix : list nat) (df : DataFrame) : DataFrame :=
  Frame (map (fun i => nth i (columns df) EmptyString) ix)
        (map (fun r => Row (label r) (take_cells ix (cells r))) (rows df)).

(** [df[keys]] for a list of labels. *)
Definition getitem_list (df : DataFrame) (keys : list string) : result DataFrame :=
  result_bind (get_indexer keys (columns df)) (fun ix => Ok (take_columns ix df)).

(** What [df[key]] returns for one label: a column when the label is
    borne once, a frame when several columns bear it. *)
Inductive selection : Type :=
| Series (values : list pyobj)
| SubFrame (df : DataFrame).

Definition getitem_label (df : DataFrame) (key : string) : result selection :=
  match positions key (columns df) with
  | [] => Raise (KeyError (PStr key))
  | [i] => Ok (Series (map (fun r => nth i (cells r) PNaN) (rows df)))
  | ix => Ok (SubFrame (take_columns ix df))
  end.

(** [series.isin(candidates)]: pandas brings both sides to a common
    type and looks every value up among the candidates; on strings and
    on the numbers that binary64 holds exactly, that is equality of
    values. *)
Definition isin (values candidates : list pyobj) : list bool :=
  map (fun v => existsb (py_eqb v) candidates) values.

(** [frame.isin(candidates)]: the same test on every cell. *)
Definition isin_frame (df : DataFrame) (candidates : list pyobj)
  : list (list bool) :=
  map (fun r => isin (cells r) candidates) (rows df).

(** [df[mask]] for a boolean column [mask] taken from [df] itself: the
    rows at which the mask holds, with their labels. *)
Definition getitem_bool (df : DataFrame) (mask : list bool) : result DataFrame :=
  if Nat.eqb (length mask) (length (rows df))
  then Ok (Frame (columns df) (map fst (List.filter snd (combine (rows df) mask))))
  else Raise ValueError.

Definition int64 (z : Z) : bool := (- 2 ^ 63 <=? z) && (z <? 2 ^ 63).
Definition uint64 (z : Z) : bool := (0 <=? z) && (z <? 2 ^ 64).

Definition holds (p : Z -> bool) (v : pyobj) : bool :=
  match v with
  | PInt z => p z
  | _ => false
  end.

(** Whether a column of these values is an integer column: integers
    that all fit [int64], or all fit [uint64]. *)
Definition integer_column (vs : list pyobj) : bool :=
  forallb (holds int64) vs || forallb (holds uint64) vs.

(** The float an integer becomes in a float column: the nearest
    binary64 value, ties to even. *)
Definition float_of_int (z : Z) : SpecFloat.spec_float :=
  SpecFloat.binary_normalize 53 1024 z 0 false.

Definition widened (v : pyobj) : pyobj :=
  match v with
  | PInt z => PFloat (float_of_int z)
  | _ => v
  end.

Definition where_cell (widen keep : bool) (v : pyobj) : pyobj :=
  if keep then (if widen then widened v else v) else PNaN.

Definition column_at (j : nat) (df : DataFrame) : list pyobj :=
  map (fun r => nth j (cells r) PNaN) (rows df).

(** [df.where(mask)] for a mask with the labels and the index of [df]:
    every row stays, a cell at which the mask fails becomes the missing
    value, and an integer column that receives a missing value becomes
    a float column. *)
Definition frame_where (df : DataFrame) (mask : list (list bool)) : DataFrame :=
  let widen j :=
    integer_column (column_at j df)
    && negb (forallb (fun m => nth j m true) mask) in
  Frame (columns df)
        (zip_with
           (fun r m =>
              Row (label r)
                  (imap (fun j v => where_cell (widen j) (nth j m true) v)
                        (cells r)))
           (rows df) mask).

(** [df[mask]] for a boolean frame [mask] with the column labels
    [labels], that is [df.where(mask)].  The mask comes from
    [df[label]] for a label that several columns bear, so its labels
    repeat: pandas aligns it only if they are the very labels of [df],
    and raises [ValueError] otherwise (it does not reindex an axis with
    duplicate labels). *)
Definition getitem_frame (df : DataFrame) (labels : list string)
    (mask : list (list bool)) : result DataFrame :=
  if decide (labels = columns df) then Ok (frame_where df mask)
  else Raise ValueError.

(** The stop of the slice [[:n]] on [len] items. *)
Definition slice_stop (n : Z) (len : nat) : nat :=
  if 0 <=? n then Z.to_nat n else (len - Z.to_nat (- n))%nat.

(** [df.head(n)], that is [df.iloc[:n]]. *)
Definition head (df : DataFrame) (n : Z) : DataFrame :=
  Frame (columns df) (firstn (slice_stop n (length (rows df))) (rows df)).

Definition relabel (m : list (string * string)) (c : string) : string :=
  match List.find (fun kv => String.eqb (fst kv) c) m with
  | Some kv => snd kv
  | None => c
  end.

(** [df.rename(columns=m)]. *)
Definition rename (df : DataFrame) (m : list (string * string)) : DataFrame :=
  Frame (map (relabel m) (columns df)) (rows df).

End Pandas.
Export Pandas.

(** ** Comma-separated text *)

Module Csv.

Definition delimiter : ascii := ","%char.
Definition quotechar : ascii := "034"%char.
Definition LF : ascii := "010"%char.
Definition CR : ascii := "013"%char.

(** The characters that make the writer quote a field: the delimiter,
    the quote character and the characters of the line terminator,
    which [to_csv] sets to LF.  A carriage return is no such character:
    the writer puts it out as it is. *)
Definition special (c : ascii) : bool :=
  Ascii.eqb c delimiter || Ascii.eqb c quotechar || Ascii.eqb c LF.

Fixpoint has_special (s : string) : bool :=
  match s with
  | EmptyString => false
  | String c s' => special c || has_special s'
  end.

(** Every quote character of the field is written twice. *)
Fixpoint double_quotes (s : string) : string :=
  match s with
  | EmptyString => EmptyString
  | String c s' =>
      if Ascii.eqb c quotechar
      then String quotechar (String quotechar (double_quotes s'))
      else String c (double_quotes s')
  end.

Definition quoted (f : string) : string :=
  String quotechar (double_quotes f +:+ String quotechar EmptyString).

(** Minimal quoting. *)
Definition quote_field (f : string) : string :=
  if has_special f then quoted f else f.

Fixpoint join_fields (fs : list string) : string :=
  match fs with
  | [] => EmptyString
  | [f] => f
  | f :: fs' => f +:+ String delimiter (join_fields fs')
  end.

(** [writer.writerow(fields)]: a record whose only field is empty is
    written as a pair of quotes, so that it is not a blank line. *)
Definition writerow (fields : list string) : string :=
  match fields with
  | [EmptyString] => quoted EmptyString
  | _ => join_fields (map quote_field fields)
  end +:+ String LF EmptyString.

Fixpoint writerows (table : list (list string)) : string :=
  match table with
  | [] => EmptyString
  | r :: table' => writerow r +:+ writerows table'
  end.

Section ToCsv.

(** The text pandas gives to a cell: [str] of an integer or a string,
    the shortest repr of a float, nothing for a missing value. *)
Variable cell_text : pyobj -> string.

Definition header_fields (df : DataFrame) (index : bool) : list string :=
  (if index then [EmptyString] else []) ++ columns df.

Definition row_fields (index : bool) (r : row) : list string :=
  (if index then [str_int (label r)] else []) ++ map cell_text (cells r).

(** [df.to_csv(index=index)]: the header record, then one record per
    row; with [index] every record starts with the index field, whose
    header is empty. *)
Definition to_csv (df : DataFrame) (index : bool) : string :=
  writerows (header_fields df index :: map (row_fields index) (rows df)).

End ToCsv.

(** *** Reading the text back *)

(** The reader is an automaton over the characters of the text: fields
    end at a delimiter, records at LF, CR or CRLF, a field that starts
    with a quote runs to its closing quote, and a doubled quote inside
    it is one quote. *)
Inductive mode : Type :=
| StartRecord | StartField | InField | InQuoted | QuoteSeen | EatLF.

Record reader : Type := Reader {
  records : list (list string);
  fields : list string;
  field : string;
  phase : mode
}.

Definition add_char (r : reader) (c : ascii) (m : mode) : reader :=
  Reader (records r) (fields r) (field r +:+ String c EmptyString) m.

Definition save_field (r : reader) : reader :=
  Reader (records r) (fields r ++ [field r]) EmptyString StartField.

Definition save_record (r : reader) (m : mode) : reader :=
  Reader (records r ++ [fields r ++ [field r]]) [] EmptyString m.

Definition start (r : reader) (c : ascii) : reader :=
  if Ascii.eqb c quotechar then Reader (records r) (fields r) (field r) InQuoted
  else if Ascii.eqb c delimiter then save_field r
  else add_char r c InField.

(** One character of input. *)
Definition step (r : reader) (c : ascii) : reader :=
  match phase r with
  | StartRecord =>
      if Ascii.eqb c LF then Reader (records r ++ [[]]) [] EmptyString StartRecord
      else if Ascii.eqb c CR then Reader (records r ++ [[]]) [] EmptyString EatLF
      else start r c
  | EatLF =>
      if Ascii.eqb c LF then Reader (records r) [] EmptyString StartRecord
      else if Ascii.eqb c CR then Reader (records r ++ [[]]) [] EmptyString EatLF
      else start r c
  | StartField =>
      if Ascii.eqb c LF then save_record r StartRecord
      else if Ascii.eqb c CR then save_record r EatLF
      else start r c
  | InField =>
      if Ascii.eqb c LF then save_record r StartRecord
      else if Ascii.eqb c CR then save_record r EatLF
      else if Ascii.eqb c delimiter then save_field r
      else add_char r c InField
  | InQuoted =>
      if Ascii.eqb c quotechar
      then Reader (records r) (fields r) (field r) QuoteSeen
      else add_char r c InQuoted
  | QuoteSeen =>
      if Ascii.eqb c quotechar then add_char r c InQuoted
      else if Ascii.eqb c LF then save_record r StartRecord
      else if Ascii.eqb c CR then save_record r EatLF
      else if Ascii.eqb c delimiter then save_field r
      else add_char r c InField
  end.

Fixpoint run (r : reader) (s : string) : reader :=
  match s with
  | EmptyString => r
  | String c s' => run (step r c) s'
  end.

(** End of input: an open quoted field is an error, an open record is
    closed. *)
Definition finish (r : reader) : option (list (list string)) :=
  match phase r with
  | StartRecord | EatLF => Some (records r)
  | InQuoted => None
  | _ => Some (records r ++ [fields r ++ [field r]])
  end.

(** Modelled from the spec: the re-parsing of the exported text, which
    no function of [main.py] performs; a reader of the dialect that
    [to_csv] writes. *)
Definition read_records (s : string) : option (list (list string)) :=
  finish (run (Reader [] [] EmptyString StartRecord) s).

(** The table a text denotes: its first record is the header. *)
Definition read_text (s : string) : option (list string * list (list string)) :=
  match read_records s with
  | Some (h :: body) => Some (h, body)
  | _ => None
  end.

(** The table a download denotes. *)
Definition read_artifact (content : list Byte.byte)
  : option (list string * list (list string)) :=
  match decode_utf8 content with
  | Some s => read_text s
  | None => None
  end.

End Csv.
Export Csv.

(** ** The world of one run *)

(** A Python list object lives in the heap and is passed by reference. *)
Definition loc : Type := positive.

Record request : Type := Request {
  url : string;
  params : list (string * string);
  headers : list (string * string)
}.

Record response : Type := Response { status_code : Z; text : string }.

(** What [Session.get] does with a request: it raises, or it returns a
    response, whatever its status code. *)
Inductive reply : Type :=
| Fails (e : exn)
| Replies (r : response).

(** The argument of [put_text]: a text, or an exception shown by its
    message. *)
Inductive shown : Type :=
| ShowStr (s : string)
| ShowExn (e : exn).

(** What a run sends to the provider and to the browser. *)
Inductive event : Type :=
| Get (rq : request)
| PutMarkdown (s : string)
| PutText (x : shown)
| PutHtml (html : string)
| PutFile (name : string) (content : list Byte.byte) (caption : string)
| Print (e : exn).

Record state : Type := State {
  heap : gmap loc (list string);
  trace : list event
}.

Definition IO (A : Type) : Type := state -> result A * state.

#[global] Instance IO_ret : MRet IO := fun A a s => (Ok a, s).

#[global] Instance IO_bind : MBind IO := fun A B k m s =>
  match m s with
  | (Ok a, s') => k a s'
  | (Raise e, s') => (Raise e, s')
  end.

Definition raise {A} (e : exn) : IO A := fun s => (Raise e, s).

Definition lift {A} (r : result A) : IO A := fun s => (r, s).

Definition emit (ev : event) : IO unit :=
  fun s => (Ok tt, State (heap s) (trace s ++ [ev])).

(** [try: body except <classes>: handler]. *)
Definition try_except {A} (body : IO A) (classes : exn -> bool)
    (handler : exn -> IO A) : IO A := fun s =>
  match body s with
  | (Raise e, s') => if classes e then handler e s' else (Raise e, s')
  | done => done
  end.

(** A new list object. *)
Definition alloc (xs : list string) : IO loc := fun s =>
  let l := fresh (dom (heap s)) in
  (Ok l, State (<[l := xs]> (heap s)) (trace s)).

Definition read (l : loc) : IO (list string) := fun s =>
  match heap s !! l with
  | Some xs => (Ok xs, s)
  | None => (Raise (Unmodelled "dangling reference"), s)
  end.

(** [l.insert(i, x)], in place. *)
Definition list_insert (l : loc) (i : nat) (x : string) : IO unit := fun s =>
  match heap s !! l with
  | Some xs =>
      (Ok tt, State (<[l := firstn i xs ++ x :: skipn i xs]> (heap s)) (trace s))
  | None => (Raise (Unmodelled "dangling reference"), s)
  end.

Definition put_markdown (s : string) : IO unit := emit (PutMarkdown s).
Definition put_text (x : shown) : IO unit := emit (PutText x).
Definition put_html (s : string) : IO unit := emit (PutHtml s).
Definition put_file (name : string) (content : list Byte.byte) (caption : string)
  : IO unit := emit (PutFile name content caption).
Definition print (e : exn) : IO unit := emit (Print e).

(** The value of the user's query once [task_func] has looked at it: the
    text itself, or the integer it spells. *)
Inductive query : Type :=
| QStr (s : string)
| QInt (n : Z).

(** ** main.py *)

Module Main.

Section World.

(** The provider, as [Session.get] reaches it. *)
Variable session_get : request -> reply.
(** [json.loads]: [None] stands for [JSONDecodeError]. *)
Variable json_loads : string -> option pyobj.
(** [pandas.json_normalize]. *)
Variable json_normalize : pyobj -> result DataFrame.
(** [DataFrame.to_html(index=...)]. *)
Variable to_html : DataFrame -> bool -> string.
(** The text [to_csv] gives to a cell. *)
Variable cell_text : pyobj -> string.

(** [session.get(url, params=parameters)] with the session's headers. *)
Definition get (rq : request) : IO response := fun s =>
  let s' := State (heap s) (trace s ++ [Get rq]) in
  match session_get rq with
  | Fails e => (Raise e, s')
  | Replies r => (Ok r, s')
  end.

(** The classes named by both [except] clauses. *)
Definition transport (e : exn) : bool :=
  match e with
  | ConnectionError | Timeout | TooManyRedirects => true
  | _ => false
  end.

Definition loads (s : string) : IO pyobj :=
  match json_loads s with
  | Some v => mret v
  | None => raise JSONDecodeError
  end.

Definition api_headers (api_key : string) : list (string * string) :=
  [("Accepts", "application/json"); ("X-CMC_PRO_API_KEY", api_key)].

Definition listings_request (api_key : string) : request :=
  Request "http://pro-api.coinmarketcap.com/v1/cryptocurrency/listings/latest"
          [("start", "1"); ("convert", "USD")]
          (api_headers api_key).

(** A local variable is [None] until an assignment binds it. *)
Definition get_data (api_key : string) : IO DataFrame :=
  data ← try_except
           (response ← get (listings_request api_key);
            data ← loads (text response);
            mret (Some data))
           transport
           (fun e => put_text (ShowExn e);; mret None);
  match data with
  | None => raise (UnboundLocalError "data")
  | Some data =>
      records ← lift (getitem_str data "data");
      lift (json_normalize records)
  end.

Definition relabeling_map : list (string * string) :=
  [("symbol", "ticker");
   ("num_market_pairs", "market_pairs");
   ("circulating_supply", "circ_supply");
   ("cmc_rank", "CMC_rank");
   ("quote.USD.price", "price_USD");
   ("quote.USD.volume_24h", "24h_volume");
   ("quote.USD.volume_change_24h", "24h_volume_change");
   ("quote.USD.percent_change_1h", "1h%");
   ("quote.USD.percent_change_24h", "24h%");
   ("quote.USD.percent_change_7d", "7d%");
   ("quote.USD.percent_change_30d", "30d%");
   ("quote.USD.percent_change_60d", "60d%");
   ("quote.USD.percent_change_90d", "90d%");
   ("quote.USD.market_cap", "market_cap");
   ("quote.USD.market_cap_dominance", "market_cap_dominance");
   ("quote.USD.fully_diluted_market_cap", "fully_diluted_market_cap");
   ("quote.USD.last_updated", "last_updated")].

(** [columns] is the caller's list object: the insertion is seen by
    every holder of the reference. *)
Definition clean_data (dataframe : DataFrame) (columns : loc) : IO DataFrame :=
  list_insert columns 0 "id";;
  keys ← read columns;
  df_cleaned ← lift (getitem_list dataframe keys);
  mret (rename df_cleaned relabeling_map).

Definition map_request (ticker_string api_key : string) : request :=
  Request "http://pro-api.coinmarketcap.com/v1/cryptocurrency/map"
          [("symbol", ticker_string)]
          (api_headers api_key).

(** The loop of [get_ids] over [range(0, len(id_map['data']))]. *)
Fixpoint collect_ids (id_map : pyobj) (range : list nat) (cmc_ids : list pyobj)
  : result (list pyobj) :=
  match range with
  | [] => Ok cmc_ids
  | i :: range' =>
      result_bind (getitem_str id_map "data") (fun entries =>
      result_bind (getitem_int entries i) (fun entry =>
      result_bind (getitem_str entry "id") (fun id =>
      collect_ids id_map range' (cmc_ids ++ [id]))))
  end.

Definition get_ids (ticker_string api_key : string) : IO (list pyobj) :=
  let ticker_string := str_remove " " ticker_string in
  id_map ← try_except
             (response ← get (map_request ticker_string api_key);
              id_map ← loads (text response);
              mret (Some id_map))
             transport
             (fun e => print e;; mret None);
  match id_map with
  | None => raise (UnboundLocalError "id_map")
  | Some id_map =>
      entries ← lift (getitem_str id_map "data");
      n ← lift (len entries);
      lift (collect_ids id_map (seq 0 n) [])
  end.

(** [df_cleaned['id']] is a column when one column bears the label and
    a frame when several do; the mask is then a frame too, and
    [df_cleaned[mask]] is [DataFrame.where]. *)
Definition get_info (ticker_string : query) (api_key : string) (columns : loc)
  : IO (DataFrame * DataFrame * string) :=
  df ← get_data api_key;
  df_cleaned ← clean_data df columns;
  info_df ←
    match ticker_string with
    | QStr ticker_string =>
        id_list ← get_ids ticker_string api_key;
        ids ← lift (getitem_label df_cleaned "id");
        match ids with
        | Series values => lift (getitem_bool df_cleaned (isin values id_list))
        | SubFrame sub =>
            lift (getitem_frame df_cleaned (Pandas.columns sub)
                                (isin_frame sub id_list))
        end
    | QInt n => mret (head df_cleaned n)
    end;
  let info_html := to_html info_df false in
  mret (df, info_df, info_html).

Definition about : string :=
  "A simple web app for generating lightly customizable tables from CoinMarketCap data. Results can be "
  +:+ "viewed in the browser and downloaded as .csv files. The app requires an API key, which can be "
  +:+ "acquired here: https://coinmarketcap.com/api/. CryptoTableMaker works (for now) with a free Basic "
  +:+ "account. This site is not affiliated with CoinMarketCap and should  be used in accordance with all "
  +:+ "Terms of Service agreements.".

(** The three arguments are the user's answers to the two [input] forms
    and to the [checkbox] form; the checkbox answer is a new list. *)
Definition task_func (api_key ticker_string : string) (column_ids : list string)
  : IO unit :=
  put_markdown "# CryptoTableMaker";;
  put_markdown about;;
  ticker_string ←
    (if isdigit ticker_string
     then n ← lift (int ticker_string); mret (QInt n)
     else mret (QStr ticker_string));
  column_ids ← alloc column_ids;
  '(df, info_df, info_html) ← get_info ticker_string api_key column_ids;
  put_html info_html;;
  put_text (ShowStr "Download current, filtered results as a .csv file:");;
  let info_csv := encode_utf8 (to_csv cell_text info_df false) in
  put_file "CMC_filtered.csv" info_csv "Download filtered";;
  put_text (ShowStr "Download top 100 current, unfiltered CoinMarketCap listings as a .csv file: ");;
  let unfiltered_csv := encode_utf8 (to_csv cell_text df true) in
  put_file "CMC_unfiltered.csv" unfiltered_csv "Download unfiltered".

End World.

End Main.
Export Main.

(** ** A small world to run the program in *)

Module Demo.

Definition asset (id : Z) (name symbol : string) (rank : Z) : pyobj :=
  PDict [("id", PInt id); ("name", PStr name); ("symbol", PStr symbol);
         ("cmc_rank", PInt rank)].

(** Four listed assets; two unrelated ones share the ticker BTC. *)
Definition listed : pyobj :=
  PList [asset 1 "Bitcoin" "BTC" 1; asset 1027 "Ethereum" "ETH" 2;
         asset 825 "Tether" "USDT" 3; asset 9999 "Bitcoin Two" "BTC" 4].

Definition listings_body : pyobj :=
  PDict [("status", PDict [("error_code", PInt 0)]); ("data", listed)].

Definition map_entry (id : Z) (symbol : string) : pyobj :=
  PDict [("id", PInt id); ("symbol", PStr symbol)].

Definition map_body : pyobj :=
  PDict [("status", PDict [("error_code", PInt 0)]);
         ("data", PList [map_entry 1 "BTC"; map_entry 9999 "BTC";
                         map_entry 1027 "ETH"])].

Definition error_body : pyobj :=
  PDict [("status", PDict [("error_code", PInt 400)])].

(** The provider: the listing for the listings request, three
    identifiers for the symbols BTC,ETH, an error payload otherwise. *)
Definition session_get (rq : request) : reply :=
  if String.eqb (url rq) (url (listings_request EmptyString))
  then Replies (Response 200 "listings")
  else match params rq with
       | [(_, symbols)] =>
           if String.eqb symbols "BTC,ETH" then Replies (Response 200 "map")
           else Replies (Response 400 "error")
       | _ => Replies (Response 400 "error")
       end.

(** A provider that cannot be reached. *)
Definition unreachable (rq : request) : reply := Fails ConnectionError.

Definition json_loads (s : string) : option pyobj :=
  if String.eqb s "listings" then Some listings_body
  else if String.eqb s "map" then Some map_body
  else if String.eqb s "error" then Some error_body
  else None.

Definition record_keys (v : pyobj) : list string :=
  match v with
  | PDict kvs => map fst kvs
  | _ => []
  end.

Definition record_values (v : pyobj) : list pyobj :=
  match v with
  | PDict kvs => map snd kvs
  | _ => []
  end.

Fixpoint number_rows (i : Z) (records : list pyobj) : list row :=
  match records with
  | [] => []
  | v :: records' => Row i (record_values v) :: number_rows (i + 1) records'
  end.

(** Normalisation of a list of flat records that share their keys. *)
Definition json_normalize (v : pyobj) : result DataFrame :=
  match v with
  | PList records =>
      Ok (Frame (match records with
                 | [] => []
                 | v :: _ => record_keys v
                 end)
                (number_rows 0 records))
  | _ => Raise (Unmodelled "json_normalize")
  end.

(** The frame of the four listed assets. *)
Definition listing : DataFrame :=
  Frame ["id"; "name"; "symbol"; "cmc_rank"]
        [Row 0 [PInt 1; PStr "Bitcoin"; PStr "BTC"; PInt 1];
         Row 1 [PInt 1027; PStr "Ethereum"; PStr "ETH"; PInt 2];
         Row 2 [PInt 825; PStr "Tether"; PStr "USDT"; PInt 3];
         Row 3 [PInt 9999; PStr "Bitcoin Two"; PStr "BTC"; PInt 4]].

Definition to_html (df : DataFrame) (index : bool) : string :=
  "<table>" +:+ join_fields (columns df) +:+ "</table>".

(** The whole number a float is, if it is one. *)
Definition whole (f : SpecFloat.spec_float) : option Z :=
  match number_of_float f with
  | Dyadic m e =>
      if 0 <=? e then Some (m * 2 ^ e)
      else if m mod 2 ^ (- e) =? 0 then Some (m / 2 ^ (- e))
      else None
  | _ => None
  end.

(** The text of a cell.  The floats of this world are whole numbers
    below 10^16, which are written with one decimal. *)
Definition cell_text (v : pyobj) : string :=
  match v with
  | PInt z => str_int z
  | PStr s => s
  | PBool true => "True"
  | PBool false => "False"
  | PFloat f =>
      match whole f with
      | Some z => str_int z +:+ ".0"
      | None => EmptyString
      end
  | _ => EmptyString
  end.

Definition fresh_state : state := State ∅ [].

(** The state in which the user's selection [cols] is the list object
    [1]. *)
Definition selected (cols : list string) : state := State {[ 1%positive := cols ]} [].

Definition run_task (api_key ticker_string : string) (column_ids : list string)
  : result unit * state :=
  task_func session_get json_loads json_normalize to_html cell_text
            api_key ticker_string column_ids fresh_state.

End Demo.

(** ** Notions the statements use *)

(** The characters below 256 for which [str.isspace] holds. *)
Definition whitespace (c : ascii) : bool :=
  let n := N_of_ascii c in
  ((9 <=? n)%N && (n <=? 13)%N) || ((28 <=? n)%N && (n <=? 32)%N)
  || (n =? 133)%N || (n =? 160)%N.

(** The downloads a trace offers, in order. *)
Fixpoint files (tr : list event) : list (string * list Byte.byte) :=
  match tr with
  | [] => []
  | PutFile name content _ :: tr' => (name, content) :: files tr'
  | _ :: tr' => files tr'
  end.

(** The requests a trace sends, in order. *)
Fixpoint requests (tr : list event) : list request :=
  match tr with
  | [] => []
  | Get rq :: tr' => rq :: requests tr'
  | _ :: tr' => requests tr'
  end.

(** The state once [ev] has been added to the trace. *)
Definition sent (s : state) (ev : event) : state :=
  State (heap s) (trace s ++ [ev]).

(** The cell of a row under the first column: the identifier of a
    record of a relabeled frame. *)
Definition first_cell (r : row) : pyobj := nth 0 (cells r) PNaN.

(** The restriction of a row to the positions [ix]. *)
Definition project_row (ix : list nat) (r : row) : row :=
  Row (label r) (take_cells ix (cells r)).

(** [v] is one of [vs], as [isin] decides it. *)
Definition member (v : pyobj) (vs : list pyobj) : bool := existsb (py_eqb v) vs.

Definition integer (v : pyobj) : bool :=
  match v with
  | PInt _ => true
  | _ => false
  end.

(** An identifier, as the provider issues it: a number.  An integer is
    taken up to 2^53 in magnitude, where binary64 holds every integer
    exactly, and a float is taken finite. *)
Definition identifier (v : pyobj) : bool :=
  match v with
  | PInt z => Z.abs z <=? 2 ^ 53
  | PFloat (SpecFloat.S754_zero _) | PFloat (SpecFloat.S754_finite _ _ _) => true
  | _ => false
  end.

Fixpoint has_char (c : ascii) (s : string) : bool :=
  match s with
  | EmptyString => false
  | String x s' => Ascii.eqb x c || has_char c s'
  end.

(** A field that holds a carriage return and that the writer leaves
    unquoted. *)
Definition bare_cr (f : string) : bool := has_char CR f && negb (has_special f).

(** The labels a selection yields: every key, once per column it
    labels. *)
Definition selected_labels (keys cols : list string) : list string :=
  concat (map (fun k => replicate (count_occ string_dec cols k) k) keys).

(** A start state: at the beginning of a record or after a delimiter. *)
Definition starting (m : mode) : Prop := m = StartRecord \/ m = StartField.

(** What the reader holds once it has read a field the writer wrote. *)
Definition field_read (R : list (list string)) (F : list string) (m : mode)
    (f : string) (r : reader) : Prop :=
  records r = R /\ fields r = F /\ field r = f /\
  (phase r = InField \/ phase r = QuoteSeen \/ (phase r = m /\ f = EmptyString)).

(** The state once the two headings are shown. *)
Definition greeted (s : state) : state :=
  sent (sent s (PutMarkdown "# CryptoTableMaker")) (PutMarkdown about).

(** What lines 155-156 make of the query string. *)
Definition query_of (ticker_string : string) : result query :=
  if isdigit ticker_string
  then result_bind (int ticker_string) (fun n => Ok (QInt n))
  else Ok (QStr ticker_string).

(** The list object that holds the checkbox answer, and the state in
    which [get_info] is called. *)
Definition checkbox_list (s : state) : loc := fresh (dom (heap s)).

Definition answered (s : state) (column_ids : list string) : state :=
  State (<[checkbox_list s := column_ids]> (heap s)) (trace (greeted s)).

(** What [task_func] shows once [get_info] has returned. *)
Definition exports (cell_text : pyobj -> string) (df info_df : DataFrame)
    (info_html : string) : list event :=
  [PutHtml info_html;
   PutText (ShowStr "Download current, filtered results as a .csv file:");
   PutFile "CMC_filtered.csv" (encode_utf8 (to_csv cell_text info_df false))
           "Download filtered";
   PutText (ShowStr "Download top 100 current, unfiltered CoinMarketCap listings as a .csv file: ");
   PutFile "CMC_unfiltered.csv" (encode_utf8 (to_csv cell_text df true))
           "Download unfiltered"].

(** A query string the spec calls valid: a count from 1 to 100, or a
    text that is not a number and is not blank once its spaces are
    removed. *)
Definition valid_query (q : string) : bool :=
  match query_of q with
  | Ok (QInt n) => (1 <=? n) && (n <=? 100)
  | Ok (QStr t) => negb (String.eqb (str_remove " " t) EmptyString)
  | Raise _ => false
  end.

(** A frame is well shaped when every row has one cell per column. *)
Definition well_shaped (df : DataFrame) : Prop :=
  Forall (fun r => length (cells r) = length (columns df)) (rows df).

(** The events that show a result to the user: the table and the
    downloads. *)
Definition is_result (ev : event) : bool :=
  match ev with
  | PutHtml _ | PutFile _ _ _ => true
  | _ => false
  end.

Definition results (tr : list event) : list event := List.filter is_result tr.

(** Two providers answer alike up to the status code when they raise
    the same exceptions and return the same bodies. *)
Definition same_bodies (p1 p2 : request -> reply) : Prop :=
  forall rq,
    match p1 rq, p2 rq with
    | Fails e1, Fails e2 => e1 = e2
    | Replies r1, Replies r2 => text r1 = text r2
    | _, _ => False
    end.

(** More small worlds. *)
Module Worlds.

(** A provider whose transport fails outside the three classes the
    program names. *)
Definition refused (rq : request) : reply := Fails RequestException.

(** The provider of [Demo], answering every request with status 500. *)
Definition failing_status (rq : request) : reply :=
  match Demo.session_get rq with
  | Replies r => Replies (Response 500 (text r))
  | Fails e => Fails e
  end.

(** A provider that answers every request with its error payload. *)
Definition unauthorized (rq : request) : reply := Replies (Response 401 "error").

(** A provider whose map lists an entry without identifier. *)
Definition json_loads_partial (s : string) : option pyobj :=
  if String.eqb s "map"
  then Some (PDict [("data", PList [Demo.map_entry 1 "BTC";
                                    PDict [("symbol", PStr "ETH")]])])
  else Demo.json_loads s.

(** A provider whose map knows none of the symbols. *)
Definition json_loads_unlisted (s : string) : option pyobj :=
  if String.eqb s "map" then Some (PDict [("data", PList [])])
  else Demo.json_loads s.

(** A provider whose map answers the symbols ETH,BTC too, with the
    same entries in another order, one of them twice. *)
Definition either_order (rq : request) : reply :=
  match params rq with
  | [(_, "ETH,BTC")] => Replies (Response 200 "map, reordered")
  | _ => Demo.session_get rq
  end.

Definition json_loads_either_order (s : string) : option pyobj :=
  if String.eqb s "map, reordered"
  then Some (PDict [("data", PList [Demo.map_entry 1027 "ETH";
                                    Demo.map_entry 9999 "BTC";
                                    Demo.map_entry 1 "BTC";
                                    Demo.map_entry 9999 "BTC"])])
  else Demo.json_loads s.

End Worlds.

(** The induction principle of [pyobj] that reaches the values nested in
    lists and dictionaries. *)
Section PyobjInd.

Variable P : pyobj -> Prop.
Hypothesis HNone : P PNone.
Hypothesis HNaN : P PNaN.
Hypothesis HBool : forall b, P (PBool b).
Hypothesis HInt : forall z, P (PInt z).
Hypothesis HFloat : forall f, P (PFloat f).
Hypothesis HStr : forall s, P (PStr s).
Hypothesis HList : forall xs, Forall P xs -> P (PList xs).
Hypothesis HDict :
  forall kvs, Forall (fun kv => P (snd kv)) kvs -> P (PDict kvs).

Fixpoint pyobj_nested_ind (v : pyobj) : P v :=
  match v with
  | PNone => HNone
  | PNaN => HNaN
  | PBool b => HBool b
  | PInt z => HInt z
  | PFloat f => HFloat f
  | PStr s => HStr s
  | PList xs =>
      HList xs
        ((fix go (l : list pyobj) : Forall P l :=
            match l with
            | [] => List.Forall_nil P
            | x :: l' => List.Forall_cons P x l' (pyobj_nested_ind x) (go l')
            end) xs)
  | PDict kvs =>
      HDict kvs
        ((fix go (l : list (string * pyobj)) : Forall (fun kv => P (snd kv)) l :=
            match l with
            | [] => List.Forall_nil _
            | kv :: l' =>
                List.Forall_cons (fun kv => P (snd kv)) kv l'
                                 (pyobj_nested_ind (snd kv)) (go l')
            end) kvs)
  end.

End PyobjInd.

(** * Properties *)

(** ** Python values *)

Lemma number_eqb_refl (x : number) : number_eqb x x = true.
Proof.
  destruct x as [m e|[]|]; [|reflexivity..]. cbn [number_eqb].
  by rewrite Z.leb_refl, Z.sub_diag, Z.mul_1_r, Z.eqb_refl.
Qed.

Lemma py_eqb_refl (a : pyobj) : py_eqb a a = true.
Proof.
  induction a as [ | | x | x | x | x | xs IH | kvs IH] using pyobj_nested_ind;
    try (cbn [py_eqb number_of]; apply number_eqb_refl).
  - reflexivity.
  - apply String.eqb_refl.
  - cbn [py_eqb]. induction IH as [|x xs Hx _ IHl]; [reflexivity|].
    by rewrite Hx, IHl.
  - cbn [py_eqb]. induction IH as [|[k x] xs Hx _ IHl]; [reflexivity|].
    cbn [snd] in Hx. by rewrite String.eqb_refl, Hx, IHl.
Qed.

(** Two integers are equal when they are the same integer. *)
Lemma py_eqb_int (x y : Z) : py_eqb (PInt x) (PInt y) = (x =? y).
Proof.
  cbn [py_eqb number_of number_eqb]. by rewrite Z.leb_refl, Z.sub_diag, Z.mul_1_r.
Qed.

Lemma py_eqb_integer (x : Z) (v : pyobj) :
  integer v = true -> py_eqb (PInt x) v = true <-> PInt x = v.
Proof.
  destruct v as [ | | | y | | | | ]; try discriminate. intros _.
  rewrite py_eqb_int, Z.eqb_eq. split; congruence.
Qed.

Lemma member_spec (v : pyobj) (vs : list pyobj) :
  member v vs = true <-> exists w, w ∈ vs /\ py_eqb v w = true.
Proof.
  unfold member. rewrite existsb_exists.
  split; intros (w & Hw & Heq); exists w; by rewrite ?list_elem_of_In in *.
Qed.

Lemma elem_of_member (v : pyobj) (vs : list pyobj) :
  v ∈ vs -> member v vs = true.
Proof. intros Hv. apply member_spec. exists v. by rewrite py_eqb_refl. Qed.

(** Among integers, [isin] is list membership. *)
Lemma member_integer (x : Z) (vs : list pyobj) :
  Forall (fun v => integer v = true) vs ->
  member (PInt x) vs = true <-> PInt x ∈ vs.
Proof.
  intros Hvs. split; [|apply elem_of_member].
  intros (w & Hw & Heq)%member_spec.
  rewrite Forall_forall in Hvs.
  apply py_eqb_integer in Heq as ->; [exact Hw | by apply Hvs].
Qed.

(** ** Column positions and selection *)

Lemma positions_from_spec (i : nat) (l : string) (cols : list string) (p : nat) :
  p ∈ positions_from i l cols <-> (i <= p)%nat /\ cols !! (p - i)%nat = Some l.
Proof.
  revert i. induction cols as [|c cols IH]; intros i; simpl.
  - rewrite elem_of_nil. split; [tauto | intros [_ H]; discriminate].
  - destruct (String.eqb_spec c l) as [->|Hne].
    + rewrite elem_of_cons, IH. split.
      * intros [->|[Hle Hp]].
        -- split; [lia|]. by rewrite Nat.sub_diag.
        -- split; [lia|]. by replace (p - i)%nat with (S (p - S i)) by lia.
      * intros [Hle Hp]. destruct (decide (p = i)) as [->|Hpi]; [by left|].
        right. split; [lia|].
        by replace (p - i)%nat with (S (p - S i)) in Hp by lia.
    + rewrite IH. split.
      * intros [Hle Hp]. split; [lia|].
        by replace (p - i)%nat with (S (p - S i)) by lia.
      * intros [Hle Hp]. destruct (decide (p = i)) as [->|Hpi].
        -- rewrite Nat.sub_diag in Hp. simpl in Hp. congruence.
        -- split; [lia|].
           by replace (p - i)%nat with (S (p - S i)) in Hp by lia.
Qed.

Lemma positions_spec (l : string) (cols : list string) (p : nat) :
  p ∈ positions l cols <-> cols !! p = Some l.
Proof.
  unfold positions. rewrite positions_from_spec, Nat.sub_0_r.
  split; [tauto | intros H; split; [lia | exact H]].
Qed.

Lemma length_positions_from (i : nat) (l : string) (cols : list string) :
  length (positions_from i l cols) = count_occ string_dec cols l.
Proof.
  revert i. induction cols as [|c cols IH]; intros i; simpl; [done|].
  destruct (String.eqb_spec c l) as [->|Hne];
    destruct (string_dec _ _) as [E|E]; simpl; try congruence; by rewrite IH.
Qed.

Lemma length_positions (l : string) (cols : list string) :
  length (positions l cols) = count_occ string_dec cols l.
Proof. apply length_positions_from. Qed.

Lemma absent_false (cols : list string) (k : string) :
  absent cols k = false <-> k ∈ cols.
Proof.
  unfold absent. rewrite list_elem_of_lookup. split.
  - destruct (positions k cols) as [|p ps] eqn:E; [discriminate|]. intros _.
    exists p. apply positions_spec. rewrite E. by left.
  - intros [p Hp%positions_spec].
    destruct (positions k cols); [by apply elem_of_nil in Hp | done].
Qed.

Lemma positions_labels (l : string) (cols : list string) :
  map (fun i => nth i cols EmptyString) (positions l cols)
  = replicate (count_occ string_dec cols l) l.
Proof.
  rewrite <- length_positions.
  assert (H : Forall (fun p => cols !! p = Some l) (positions l cols)).
  { apply Forall_forall. intros p Hp. by apply positions_spec. }
  induction H as [|p ps Hp _ IH]; simpl; [done|].
  rewrite IH. f_equal. apply nth_lookup_Some with (d := EmptyString) in Hp.
  exact Hp.
Qed.

Lemma positions_present (l : string) (cols : list string) :
  l ∈ cols -> exists p ps, positions l cols = p :: ps /\ cols !! p = Some l.
Proof.
  intros H%absent_false. unfold absent in H.
  destruct (positions l cols) as [|p ps] eqn:E; [discriminate|].
  exists p, ps. split; [done|]. apply positions_spec. rewrite E. by left.
Qed.

(** The indexer of keys that all label a column. *)
Lemma get_indexer_present (keys cols : list string) :
  (forall k, k ∈ keys -> k ∈ cols) ->
  get_indexer keys cols = Ok (concat (map (fun k => positions k cols) keys)).
Proof.
  intros H. unfold get_indexer.
  replace (List.filter (absent cols) keys) with (@nil string); [done|].
  symmetry. induction keys as [|k keys IH]; simpl; [done|].
  assert (Hk : absent cols k = false) by (apply absent_false, H; by left).
  rewrite Hk. apply IH. intros k' Hk'. apply H. by right.
Qed.

(** The indexer fails as soon as one key labels no column. *)
Lemma get_indexer_missing (keys cols : list string) (k : string) :
  k ∈ keys -> k ∉ cols -> exists e, get_indexer keys cols = Raise e.
Proof.
  intros Hk Hc. unfold get_indexer.
  assert (Hin : In k (List.filter (absent cols) keys)).
  { apply filter_In. split; [by apply list_elem_of_In|].
    destruct (absent cols k) eqn:E; [done|]. by apply absent_false in E. }
  destruct (List.filter (absent cols) keys); [destruct Hin | eauto].
Qed.

Lemma indexer_labels (keys cols : list string) :
  map (fun i => nth i cols EmptyString)
      (concat (map (fun k => positions k cols) keys))
  = selected_labels keys cols.
Proof.
  unfold selected_labels. induction keys as [|k keys IH]; simpl; [done|].
  by rewrite map_app, positions_labels, IH.
Qed.

Lemma indexer_in_range (keys cols : list string) :
  Forall (fun p => (p < length cols)%nat)
         (concat (map (fun k => positions k cols) keys)).
Proof.
  apply Forall_forall. intros p Hp.
  apply list_elem_of_In, in_concat in Hp as (ps & Hps & Hp).
  apply in_map_iff in Hps as (k & <- & _).
  apply list_elem_of_In, positions_spec in Hp.
  by apply lookup_lt_Some in Hp.
Qed.

Lemma count_occ_replicate (n : nat) (k l : string) :
  count_occ string_dec (replicate n k) l = if decide (k = l) then n else 0%nat.
Proof.
  induction n as [|n IH]; simpl; [by case_decide|].
  destruct (string_dec k l); case_decide; simpl; try congruence; lia.
Qed.

Lemma count_occ_selected (keys cols : list string) (l : string) :
  count_occ string_dec (selected_labels keys cols) l
  = (count_occ string_dec keys l * count_occ string_dec cols l)%nat.
Proof.
  unfold selected_labels. induction keys as [|k keys IH]; simpl; [done|].
  rewrite count_occ_app, IH, count_occ_replicate.
  destruct (string_dec k l); case_decide; try congruence; subst; lia.
Qed.

(** ** Relabeling *)

Lemma relabel_fixes (m : list (string * string)) (l c : string) :
  Forall (fun kv => fst kv <> l /\ snd kv <> l) m ->
  relabel m c = l <-> c = l.
Proof.
  intros Hm. unfold relabel.
  destruct (List.find _ m) as [kv|] eqn:E; [|done].
  apply find_some in E as [Hin Hk%String.eqb_eq].
  rewrite List.Forall_forall in Hm. destruct (Hm kv Hin) as [H1 H2].
  split; intros H; congruence.
Qed.

Lemma relabeling_map_spares_id :
  Forall (fun kv => fst kv <> "id" /\ snd kv <> "id") relabeling_map.
Proof. unfold relabeling_map. repeat constructor; discriminate. Qed.

Lemma relabel_id (c : string) : relabel relabeling_map c = "id" <-> c = "id".
Proof. apply relabel_fixes, relabeling_map_spares_id. Qed.

Lemma count_occ_relabel_id (labels : list string) :
  count_occ string_dec (map (relabel relabeling_map) labels) "id"
  = count_occ string_dec labels "id".
Proof.
  induction labels as [|c labels IH]; [done|].
  cbn [map count_occ]. rewrite IH.
  pose proof (relabel_id c) as Hc.
  destruct (string_dec (relabel relabeling_map c) "id"), (string_dec c "id");
    tauto.
Qed.

(** ** The steps of [clean_data] *)

Lemma clean_data_run (dataframe : DataFrame) (l : loc) (selection : list string)
    (s : state) :
  heap s !! l = Some selection ->
  clean_data dataframe l s
  = (result_bind (get_indexer ("id" :: selection) (columns dataframe))
       (fun ix => Ok (rename (take_columns ix dataframe) relabeling_map)),
     State (<[l := "id" :: selection]> (heap s)) (trace s)).
Proof.
  intros Hl. unfold clean_data, mbind, IO_bind, list_insert, read, lift, mret, IO_ret.
  rewrite Hl. simpl. rewrite lookup_insert_eq. unfold getitem_list.
  by destruct (get_indexer _ _).
Qed.

Lemma clean_data_present (dataframe : DataFrame) (l : loc)
    (selection : list string) (s : state) :
  heap s !! l = Some selection ->
  "id" ∈ columns dataframe ->
  selection ⊆ columns dataframe ->
  clean_data dataframe l s
  = (Ok (rename (take_columns
                   (concat (map (fun k => positions k (columns dataframe))
                                ("id" :: selection)))
                   dataframe) relabeling_map),
     State (<[l := "id" :: selection]> (heap s)) (trace s)).
Proof.
  intros Hl Hid Hsel. rewrite (clean_data_run _ _ _ _ Hl).
  rewrite get_indexer_present; [done|].
  intros k [->|Hk]%elem_of_cons; auto.
Qed.

Lemma columns_cleaned (ix : list nat) (df : DataFrame) :
  columns (rename (take_columns ix df) relabeling_map)
  = map (fun p => relabel relabeling_map (nth p (columns df) EmptyString)) ix.
Proof. simpl. by rewrite map_map. Qed.

(** ** C3, C9, C10: projection and relabeling *)

(** C3. For every column selection that lacks the identifier key,
    [clean_data] returns a frame whose first column is labelled [id] and
    holds, row by row, the identifier cells of the input; when the
    labels of the input are distinct no other column of the output
    bears that label. *)
Theorem C3_identifier_prepended (dataframe : DataFrame) (l : loc)
    (selection : list string) (s : state) :
  heap s !! l = Some selection ->
  "id" ∉ selection ->
  "id" ∈ columns dataframe ->
  selection ⊆ columns dataframe ->
  exists out s' rest p,
    clean_data dataframe l s = (Ok out, s') /\
    columns out = "id" :: rest /\
    columns dataframe !! p = Some "id" /\
    map first_cell (rows out)
      = map (fun r => nth p (cells r) PNaN) (rows dataframe) /\
    (NoDup (columns dataframe) -> "id" ∉ rest).
Proof.
  intros Hl Hsel Hid Hkeys.
  destruct (positions_present _ _ Hid) as (p & ps & Hpos & Hp).
  eexists _, _, _, p. split; [by apply clean_data_present|].
  rewrite columns_cleaned. cbn [map concat]. rewrite Hpos. cbn [app map].
  rewrite (nth_lookup_Some _ _ EmptyString _ Hp).
  split; [reflexivity|]. split; [exact Hp|]. split.
  - simpl. rewrite map_map. apply map_ext. intros r. reflexivity.
  - intros Hnd Hin. apply list_elem_of_In, in_map_iff in Hin as (q & Hq & Hin).
    apply (proj1 (relabel_id _)) in Hq. apply in_app_or in Hin as [Hin|Hin].
    + assert (Hc : count_occ string_dec (columns dataframe) "id" = 1%nat).
      { apply NoDup_ListNoDup in Hnd.
        pose proof (proj1 (NoDup_count_occ string_dec _) Hnd "id").
        apply list_elem_of_In, (count_occ_In string_dec) in Hid. lia. }
      rewrite <- length_positions, Hpos in Hc. simpl in Hc.
      destruct ps; [destruct Hin | discriminate].
    + apply in_concat in Hin as (qs & Hqs & Hin).
      apply in_map_iff in Hqs as (k & <- & Hk).
      apply list_elem_of_In, positions_spec in Hin.
      apply (nth_lookup_Some _ _ EmptyString) in Hin.
      apply Hsel, list_elem_of_In. congruence.
Qed.

Lemma C3_identifier_prepended_witness :
  exists out s' rest p,
    clean_data Demo.listing 1%positive (Demo.selected ["name"; "symbol"])
      = (Ok out, s') /\
    columns out = "id" :: rest /\
    columns Demo.listing !! p = Some "id" /\
    map first_cell (rows out)
      = map (fun r => nth p (cells r) PNaN) (rows Demo.listing) /\
    (NoDup (columns Demo.listing) -> "id" ∉ rest).
Proof.
  apply (C3_identifier_prepended Demo.listing 1%positive ["name"; "symbol"]).
  - reflexivity.
  - compute_done.
  - compute_done.
  - compute_done.
Defined.

Lemma count_id_cleaned (dataframe : DataFrame) (selection : list string) :
  count_occ string_dec
    (columns (rename (take_columns
                        (concat (map (fun k => positions k (columns dataframe))
                                     ("id" :: selection)))
                        dataframe) relabeling_map)) "id"
  = (S (count_occ string_dec selection "id")
     * count_occ string_dec (columns dataframe) "id")%nat.
Proof.
  cbn [rename take_columns columns].
  rewrite count_occ_relabel_id, indexer_labels, count_occ_selected.
  reflexivity.
Qed.

(** C9. [clean_data] inserts the identifier key at position 0 of the
    caller's own list, whether or not the projection then succeeds.
    When the selection already names the identifier, the frame returned
    has at least two columns labelled [id], and exactly two when
    neither the selection nor the input repeats a label. *)
Theorem C9_selection_mutated_identifier_twice (dataframe : DataFrame) (l : loc)
    (selection : list string) (s : state) :
  heap s !! l = Some selection ->
  heap (snd (clean_data dataframe l s)) !! l = Some ("id" :: selection) /\
  ("id" ∈ selection ->
   selection ⊆ columns dataframe ->
   exists out s',
     clean_data dataframe l s = (Ok out, s') /\
     (2 <= count_occ string_dec (columns out) "id")%nat /\
     (NoDup selection -> NoDup (columns dataframe) ->
      count_occ string_dec (columns out) "id" = 2%nat)).
Proof.
  intros Hl. split.
  - rewrite (clean_data_run _ _ _ _ Hl). simpl. apply lookup_insert_eq.
  - intros Hid Hsub.
    assert (Hdf : "id" ∈ columns dataframe) by (apply Hsub, Hid).
    eexists _, _. split; [by apply clean_data_present|].
    rewrite count_id_cleaned.
    apply list_elem_of_In, (count_occ_In string_dec) in Hid, Hdf.
    split; [nia|]. intros Hs%NoDup_ListNoDup Hd%NoDup_ListNoDup.
    pose proof (proj1 (NoDup_count_occ string_dec _) Hs "id").
    pose proof (proj1 (NoDup_count_occ string_dec _) Hd "id").
    nia.
Qed.

Lemma C9_selection_mutated_identifier_twice_witness :
  heap (snd (clean_data Demo.listing 1%positive (Demo.selected ["id"; "symbol"])))
    !! 1%positive = Some ["id"; "id"; "symbol"] /\
  exists out s',
    clean_data Demo.listing 1%positive (Demo.selected ["id"; "symbol"])
      = (Ok out, s') /\
    (2 <= count_occ string_dec (columns out) "id")%nat /\
    (NoDup ["id"; "symbol"] -> NoDup (columns Demo.listing) ->
     count_occ string_dec (columns out) "id" = 2%nat).
Proof.
  destruct (C9_selection_mutated_identifier_twice
              Demo.listing 1%positive ["id"; "symbol"]
              (Demo.selected ["id"; "symbol"]) eq_refl) as [Hheap Hout].
  split; [exact Hheap|]. apply Hout; compute_done.
Defined.

(** C10. For every input frame that has an identifier column and every
    selection whose keys all label columns of the input, [clean_data]
    returns one row per input row, in the same order and under the same
    index label: the row at any rank is the input row at that rank
    restricted to the selected positions, and each output column bears
    the relabeled name of the input column it is taken from. *)
Theorem C10_projection_keeps_rows (dataframe : DataFrame) (l : loc)
    (selection : list string) (s : state) :
  heap s !! l = Some selection ->
  "id" ∈ columns dataframe ->
  selection ⊆ columns dataframe ->
  exists ix out s',
    clean_data dataframe l s = (Ok out, s') /\
    length (rows out) = length (rows dataframe) /\
    (forall n, rows out !! n = project_row ix <$> rows dataframe !! n) /\
    map label (rows out) = map label (rows dataframe) /\
    Forall (fun p => (p < length (columns dataframe))%nat) ix /\
    columns out
      = map (fun p => relabel relabeling_map (nth p (columns dataframe) EmptyString)) ix /\
    map (fun p => nth p (columns dataframe) EmptyString) ix
      = selected_labels ("id" :: selection) (columns dataframe).
Proof.
  intros Hl Hid Hsub.
  exists (concat (map (fun k => positions k (columns dataframe)) ("id" :: selection))).
  eexists _, _. split; [exact (clean_data_present _ _ _ _ Hl Hid Hsub)|].
  split; [simpl; by rewrite length_map|].
  split; [intros n; simpl; apply list_lookup_fmap|].
  split; [simpl; rewrite map_map; by apply map_ext|].
  split.
  - apply (indexer_in_range ("id" :: selection)).
  - split; [apply columns_cleaned | apply (indexer_labels ("id" :: selection))].
Qed.

Lemma C10_projection_keeps_rows_witness :
  exists ix out s',
    clean_data Demo.listing 1%positive (Demo.selected ["symbol"; "name"])
      = (Ok out, s') /\
    length (rows out) = length (rows Demo.listing) /\
    (forall n, rows out !! n = project_row ix <$> rows Demo.listing !! n) /\
    map label (rows out) = map label (rows Demo.listing) /\
    Forall (fun p => (p < length (columns Demo.listing))%nat) ix /\
    columns out
      = map (fun p => relabel relabeling_map
                        (nth p (columns Demo.listing) EmptyString)) ix /\
    map (fun p => nth p (columns Demo.listing) EmptyString) ix
      = selected_labels ("id" :: ["symbol"; "name"]) (columns Demo.listing).
Proof.
  apply (C10_projection_keeps_rows Demo.listing 1%positive ["symbol"; "name"]).
  - reflexivity.
  - compute_done.
  - compute_done.
Defined.

(** ** Running the fetcher, the resolver and the query *)

Section Runs.

Variable session_get : request -> reply.
Variable json_loads : string -> option pyobj.
Variable json_normalize : pyobj -> result DataFrame.
Variable to_html : DataFrame -> bool -> string.

Abbreviation get_data := (Main.get_data session_get json_loads json_normalize).
Abbreviation get_ids := (Main.get_ids session_get json_loads).
Abbreviation get_info :=
  (Main.get_info session_get json_loads json_normalize to_html).

(** Every path through [get_data]. *)
Lemma get_data_run (api_key : string) (s : state) :
  get_data api_key s
  = let s1 := sent s (Get (listings_request api_key)) in
    match session_get (listings_request api_key) with
    | Fails e =>
        if transport e
        then (Raise (UnboundLocalError "data"), sent s1 (PutText (ShowExn e)))
        else (Raise e, s1)
    | Replies r =>
        match json_loads (text r) with
        | None => (Raise JSONDecodeError, s1)
        | Some data =>
            (result_bind (getitem_str data "data") json_normalize, s1)
        end
    end.
Proof.
  unfold Main.get_data, try_except, mbind, IO_bind, Main.get, loads, sent.
  destruct (session_get _) as [e|r]; simpl.
  - destruct (transport e); reflexivity.
  - destruct (json_loads _) as [data|]; simpl; [|reflexivity].
    unfold lift. destruct (getitem_str data "data"); reflexivity.
Qed.

(** Every path through [get_ids]. *)
Lemma get_ids_run (ticker_string api_key : string) (s : state) :
  get_ids ticker_string api_key s
  = let rq := map_request (str_remove " " ticker_string) api_key in
    let s1 := sent s (Get rq) in
    match session_get rq with
    | Fails e =>
        if transport e
        then (Raise (UnboundLocalError "id_map"), sent s1 (Print e))
        else (Raise e, s1)
    | Replies r =>
        match json_loads (text r) with
        | None => (Raise JSONDecodeError, s1)
        | Some id_map =>
            (result_bind (getitem_str id_map "data") (fun entries =>
             result_bind (len entries) (fun n =>
             collect_ids id_map (seq 0 n) [])), s1)
        end
    end.
Proof.
  unfold Main.get_ids, try_except, mbind, IO_bind, Main.get, loads, sent.
  destruct (session_get _) as [e|r]; simpl.
  - destruct (transport e); reflexivity.
  - destruct (json_loads _) as [id_map|]; simpl; [|reflexivity].
    unfold lift. destruct (getitem_str id_map "data") as [entries|]; simpl;
      [|reflexivity].
    destruct (len entries); reflexivity.
Qed.

(** The loop collects the identifier of every entry, in order. *)
Lemma collect_ids_all (id_map : pyobj) (entries : list pyobj)
    (done todo : list pyobj) (acc ids : list pyobj) :
  getitem_str id_map "data" = Ok (PList entries) ->
  entries = done ++ todo ->
  Forall2 (fun e id => getitem_str e "id" = Ok id) todo ids ->
  collect_ids id_map (seq (length done) (length todo)) acc = Ok (acc ++ ids).
Proof.
  intros Hdata. revert done acc ids.
  induction todo as [|e todo IH]; intros done acc ids Hent Hids.
  - apply Forall2_nil_inv_l in Hids as ->. simpl. by rewrite app_nil_r.
  - apply Forall2_cons_inv_l in Hids as (id & ids' & Hid & Hids & ->).
    cbn [length seq collect_ids]. rewrite Hdata. cbn [result_bind getitem_int].
    assert (Hn : nth_error entries (length done) = Some e).
    { rewrite Hent, nth_error_app2, Nat.sub_diag by lia. reflexivity. }
    rewrite Hn. cbn [result_bind]. rewrite Hid. cbn [result_bind].
    specialize (IH (done ++ [e]) (acc ++ [id]) ids').
    rewrite length_app, Nat.add_1_r, <- !app_assoc in IH.
    apply IH; [exact Hent | exact Hids].
Qed.

Lemma get_ids_replied (ticker_string api_key : string) (s : state)
    (r : response) (id_map : pyobj) (entries ids : list pyobj) :
  session_get (map_request (str_remove " " ticker_string) api_key) = Replies r ->
  json_loads (text r) = Some id_map ->
  getitem_str id_map "data" = Ok (PList entries) ->
  Forall2 (fun e id => getitem_str e "id" = Ok id) entries ids ->
  get_ids ticker_string api_key s
  = (Ok ids,
     sent s (Get (map_request (str_remove " " ticker_string) api_key))).
Proof.
  intros Hget Hloads Hdata Hids. rewrite get_ids_run. cbn zeta.
  rewrite Hget, Hloads, Hdata. cbn [result_bind len]. f_equal.
  apply (collect_ids_all id_map entries [] entries [] ids); done.
Qed.

(** The mask of [isin] keeps the rows whose cell is a candidate. *)
Lemma mask_filter (rs : list row) (f : row -> bool) :
  map fst (List.filter snd (combine rs (map f rs))) = List.filter f rs.
Proof.
  induction rs as [|r rs IH]; simpl; [done|].
  destruct (f r); simpl; by rewrite IH.
Qed.

Lemma getitem_bool_isin (df : DataFrame) (i : nat) (candidates : list pyobj) :
  getitem_bool df (isin (map (fun r => nth i (cells r) PNaN) (rows df)) candidates)
  = Ok (Frame (columns df)
              (List.filter (fun r => member (nth i (cells r) PNaN) candidates)
                           (rows df))).
Proof.
  unfold getitem_bool, isin. rewrite !length_map, Nat.eqb_refl, map_map.
  by rewrite (mask_filter (rows df)
                (fun r => existsb (py_eqb (nth i (cells r) PNaN)) candidates)).
Qed.

(** The row-count branch of [get_info]. *)
Lemma get_info_count_run (n : Z) (api_key : string) (l : loc) (s s1 s2 : state)
    (df df_cleaned : DataFrame) :
  get_data api_key s = (Ok df, s1) ->
  clean_data df l s1 = (Ok df_cleaned, s2) ->
  get_info (QInt n) api_key l s
  = (Ok (df, head df_cleaned n, to_html (head df_cleaned n) false), s2).
Proof.
  intros Hdata Hclean. unfold Main.get_info, mbind, IO_bind.
  rewrite Hdata, Hclean. reflexivity.
Qed.

(** The ticker branch of [get_info] on a frame whose only identifier
    column is the first. *)
Lemma get_info_ticker_run (t api_key : string) (l : loc) (s s1 s2 s3 : state)
    (df df_cleaned : DataFrame) (id_list : list pyobj) :
  get_data api_key s = (Ok df, s1) ->
  clean_data df l s1 = (Ok df_cleaned, s2) ->
  get_ids t api_key s2 = (Ok id_list, s3) ->
  positions "id" (columns df_cleaned) = [0%nat] ->
  let info_df :=
    Frame (columns df_cleaned)
          (List.filter (fun r => member (first_cell r) id_list) (rows df_cleaned)) in
  get_info (QStr t) api_key l s = (Ok (df, info_df, to_html info_df false), s3).
Proof.
  intros Hdata Hclean Hids Hpos info_df. unfold Main.get_info, mbind, IO_bind.
  rewrite Hdata, Hclean, Hids. unfold lift, getitem_label. rewrite Hpos.
  rewrite getitem_bool_isin. reflexivity.
Qed.

Lemma get_indexer_inv (keys cols : list string) (ix : list nat) :
  get_indexer keys cols = Ok ix ->
  keys ⊆ cols /\ ix = concat (map (fun k => positions k cols) keys).
Proof.
  intros H. assert (Hsub : keys ⊆ cols).
  { intros k Hk. destruct (decide (k ∈ cols)) as [|Hn]; [done|].
    destruct (get_indexer_missing keys cols k Hk Hn) as [e He]. congruence. }
  split; [exact Hsub|]. rewrite get_indexer_present in H by exact Hsub.
  congruence.
Qed.

Lemma clean_data_inv (df df_cleaned : DataFrame) (l : loc)
    (selection : list string) (s s' : state) :
  heap s !! l = Some selection ->
  clean_data df l s = (Ok df_cleaned, s') ->
  "id" ∈ columns df /\ selection ⊆ columns df /\
  df_cleaned
  = rename (take_columns
              (concat (map (fun k => positions k (columns df)) ("id" :: selection)))
              df) relabeling_map.
Proof.
  intros Hl Hrun. rewrite (clean_data_run _ _ _ _ Hl) in Hrun.
  destruct (get_indexer ("id" :: selection) (columns df)) as [ix|] eqn:E;
    [|discriminate].
  apply get_indexer_inv in E as [Hsub ->]. cbn [result_bind] in Hrun.
  injection Hrun as Hdf _.
  split; [apply Hsub; by left|]. split; [|symmetry; exact Hdf].
  intros k Hk. apply Hsub. by right.
Qed.

Lemma clean_data_bound (df df_cleaned : DataFrame) (l : loc) (s s' : state) :
  clean_data df l s = (Ok df_cleaned, s') ->
  exists selection, heap s !! l = Some selection.
Proof.
  unfold clean_data, mbind, IO_bind, list_insert.
  destruct (heap s !! l) as [selection|]; [eauto | discriminate].
Qed.

(** The first column of a relabeled frame is labelled [id]; when no
    other column is, that is the one place of the label. *)
Lemma cleaned_identifier_first (df df_cleaned : DataFrame) (l : loc)
    (s s' : state) :
  clean_data df l s = (Ok df_cleaned, s') ->
  count_occ string_dec (columns df_cleaned) "id" = 1%nat ->
  positions "id" (columns df_cleaned) = [0%nat].
Proof.
  intros Hrun Hone.
  destruct (clean_data_bound _ _ _ _ _ Hrun) as [selection Hl].
  destruct (clean_data_inv _ _ _ _ _ _ Hl Hrun) as (Hid & Hsub & ->).
  destruct (positions_present _ _ Hid) as (p & ps & Hpos & Hp).
  revert Hone. rewrite columns_cleaned. cbn [map concat]. rewrite Hpos.
  cbn [app map]. rewrite (nth_lookup_Some _ _ EmptyString _ Hp).
  rewrite (proj2 (relabel_id "id") eq_refl).
  generalize (map (fun p => relabel relabeling_map (nth p (columns df) EmptyString))
                  (ps ++ concat (map (fun k => positions k (columns df)) selection))).
  intros rest Hone. cbn [count_occ] in Hone.
  destruct (string_dec "id" "id"); [|done].
  unfold positions. cbn [positions_from]. rewrite String.eqb_refl. f_equal.
  apply length_zero_iff_nil. rewrite length_positions_from. lia.
Qed.

(** A selection that does not name the identifier, on a frame whose
    labels are distinct, gives a relabeled frame with one identifier
    column. *)
Lemma cleaned_identifier_once (df df_cleaned : DataFrame) (l : loc)
    (selection : list string) (s s' : state) :
  heap s !! l = Some selection ->
  "id" ∉ selection ->
  NoDup (columns df) ->
  clean_data df l s = (Ok df_cleaned, s') ->
  count_occ string_dec (columns df_cleaned) "id" = 1%nat.
Proof.
  intros Hl Hsel Hnd Hrun.
  destruct (clean_data_inv _ _ _ _ _ _ Hl Hrun) as (Hid & Hsub & ->).
  rewrite count_id_cleaned.
  assert (Hone : count_occ string_dec (columns df) "id" = 1%nat).
  { apply NoDup_ListNoDup in Hnd.
    pose proof (proj1 (NoDup_count_occ string_dec _) Hnd "id").
    apply list_elem_of_In, (count_occ_In string_dec) in Hid. lia. }
  assert (Hzero : count_occ string_dec selection "id" = 0%nat).
  { apply count_occ_not_In. by rewrite <- list_elem_of_In. }
  rewrite Hone, Hzero. reflexivity.
Qed.

Lemma filter_sublist {A} (f : A -> bool) (xs : list A) :
  sublist (List.filter f xs) xs.
Proof.
  induction xs as [|x xs IH]; simpl; [constructor|].
  destruct (f x); by constructor.
Qed.

Lemma int_digits_lower (s : string) (acc : Z) :
  all_chars is_decimal s = true -> 0 <= acc -> acc <= int_digits acc s.
Proof.
  revert acc. induction s as [|c s IH]; intros acc Hs Hacc; simpl in *; [lia|].
  apply andb_true_iff in Hs as [Hc Hs]. unfold is_decimal in Hc.
  apply andb_true_iff in Hc as [Hlo%N.leb_le Hhi%N.leb_le].
  etransitivity; [|apply IH; [exact Hs | lia]]. lia.
Qed.

(** The row count [task_func] passes on is never negative. *)
Lemma int_nonneg (s : string) (n : Z) : int s = Ok n -> 0 <= n.
Proof.
  unfold int. destruct (all_chars is_decimal s) eqn:E; [|discriminate].
  destruct (String.length s <=? max_str_digits)%nat; [|discriminate].
  intros [= <-]. by apply int_digits_lower.
Qed.

Lemma str_remove_filter (c : ascii) (s : string) :
  list_ascii_of_string (str_remove c s)
  = List.filter (fun x => negb (Ascii.eqb x c)) (list_ascii_of_string s).
Proof.
  induction s as [|x s IH]; simpl; [done|].
  destruct (Ascii.eqb x c); simpl; by rewrite IH.
Qed.

(** ** C1, C2, C4, C5: the query, the resolver and the failures *)

(** C1. For every row count [n] that [task_func] can pass (a number
    spelled with digits is never negative), the query returns the first
    [n] rows of the relabeled frame, in their order: [min n M] rows when
    the frame has [M]. *)
Theorem C1_row_count_takes_first_rows (n : Z) (api_key : string) (l : loc)
    (s s1 s2 : state) (df df_cleaned : DataFrame) :
  get_data api_key s = (Ok df, s1) ->
  clean_data df l s1 = (Ok df_cleaned, s2) ->
  0 <= n ->
  exists info_df,
    get_info (QInt n) api_key l s
      = (Ok (df, info_df, to_html info_df false), s2) /\
    columns info_df = columns df_cleaned /\
    rows info_df = take (Z.to_nat n) (rows df_cleaned) /\
    Z.of_nat (length (rows info_df))
      = Z.min n (Z.of_nat (length (rows df_cleaned))).
Proof.
  intros Hdata Hclean Hn. exists (head df_cleaned n).
  split; [by eapply get_info_count_run|]. split; [reflexivity|].
  assert (Hstop : slice_stop n (length (rows df_cleaned)) = Z.to_nat n).
  { unfold slice_stop. destruct (Z.leb_spec 0 n); [reflexivity | lia]. }
  unfold head. cbn [rows]. rewrite Hstop. split; [reflexivity|].
  rewrite length_take. lia.
Qed.

(** C2, as amended. For every relabeled frame with exactly one
    identifier column, whose identifiers are numbers, and every ticker
    query that the resolver answers with numbers, the query returns the
    rows whose identifier equals one of the resolved identifiers, in
    their order in the frame; among integers these are the rows whose
    identifier is one of the resolved ones.  It returns no row, and
    raises nothing, when none matches. *)
Theorem C2_ticker_rows_by_identifier (t api_key : string) (l : loc)
    (s s1 s2 s3 : state) (df df_cleaned : DataFrame) (id_list : list pyobj) :
  get_data api_key s = (Ok df, s1) ->
  clean_data df l s1 = (Ok df_cleaned, s2) ->
  count_occ string_dec (columns df_cleaned) "id" = 1%nat ->
  get_ids t api_key s2 = (Ok id_list, s3) ->
  Forall (fun r => identifier (first_cell r) = true) (rows df_cleaned) ->
  Forall (fun v => identifier v = true) id_list ->
  exists info_df,
    get_info (QStr t) api_key l s
      = (Ok (df, info_df, to_html info_df false), s3) /\
    columns info_df = columns df_cleaned /\
    rows info_df
      = List.filter (fun r => member (first_cell r) id_list) (rows df_cleaned) /\
    sublist (rows info_df) (rows df_cleaned) /\
    (forall r, r ∈ rows info_df <->
       r ∈ rows df_cleaned /\
       exists id, id ∈ id_list /\ py_eqb (first_cell r) id = true) /\
    (Forall (fun v => integer v = true) id_list ->
     forall r, integer (first_cell r) = true ->
       (r ∈ rows info_df <-> r ∈ rows df_cleaned /\ first_cell r ∈ id_list)) /\
    ((forall r, r ∈ rows df_cleaned -> member (first_cell r) id_list = false) ->
     rows info_df = []).
Proof.
  intros Hdata Hclean Hone Hids _ _.
  pose proof (cleaned_identifier_first _ _ _ _ _ Hclean Hone) as Hpos.
  eexists. split; [by eapply get_info_ticker_run|].
  cbn [columns rows]. split; [reflexivity|]. split; [reflexivity|].
  split; [apply filter_sublist|].
  assert (Hmem : forall r,
    r ∈ List.filter (fun r => member (first_cell r) id_list) (rows df_cleaned)
    <-> r ∈ rows df_cleaned /\ member (first_cell r) id_list = true).
  { intros r. by rewrite !list_elem_of_In, filter_In. }
  split; [|split].
  - intros r. by rewrite Hmem, member_spec.
  - intros Hint r Hr. rewrite Hmem.
    destruct (first_cell r) as [ | | | z | | | | ] eqn:E; try discriminate.
    by rewrite (member_integer z id_list Hint).
  - intros Hnone.
    destruct (List.filter _ _) as [|r rs] eqn:E; [reflexivity|].
    destruct (proj1 (Hmem r) (list_elem_of_here _ _)) as [Hr Hin].
    rewrite (Hnone r Hr) in Hin. discriminate Hin.
Qed.

(** C4, as amended. The resolver removes every space character of the
    ticker string, and nothing else, before it sends it; it returns the
    identifier of every entry of the provider's answer, in order.  When
    the relabeled frame has exactly one identifier column and the
    identifiers on both sides are numbers, every row of the relabeled
    frame whose identifier is among them is in the filtered output. *)
Theorem C4_spaces_removed_every_identifier_kept (t api_key : string) (l : loc)
    (s s1 s2 : state) (df df_cleaned : DataFrame)
    (r : response) (id_map : pyobj) (entries ids : list pyobj) :
  get_data api_key s = (Ok df, s1) ->
  clean_data df l s1 = (Ok df_cleaned, s2) ->
  session_get (map_request (str_remove " " t) api_key) = Replies r ->
  json_loads (text r) = Some id_map ->
  getitem_str id_map "data" = Ok (PList entries) ->
  Forall2 (fun e id => getitem_str e "id" = Ok id) entries ids ->
  list_ascii_of_string (str_remove " " t)
    = List.filter (fun c => negb (Ascii.eqb c " ")) (list_ascii_of_string t) /\
  get_ids t api_key s2
    = (Ok ids, sent s2 (Get (map_request (str_remove " " t) api_key))) /\
  (forall e, e ∈ entries -> exists id, getitem_str e "id" = Ok id /\ id ∈ ids) /\
  (count_occ string_dec (columns df_cleaned) "id" = 1%nat ->
   Forall (fun r => identifier (first_cell r) = true) (rows df_cleaned) ->
   Forall (fun v => identifier v = true) ids ->
   exists info_df s3,
     get_info (QStr t) api_key l s
       = (Ok (df, info_df, to_html info_df false), s3) /\
     forall row, row ∈ rows df_cleaned -> first_cell row ∈ ids ->
                 row ∈ rows info_df).
Proof.
  intros Hdata Hclean Hget Hloads Hentries Hids.
  pose proof (get_ids_replied t api_key s2 r id_map entries ids
                Hget Hloads Hentries Hids) as Hrun.
  split; [apply str_remove_filter|]. split; [exact Hrun|]. split.
  - intros e He. apply list_elem_of_lookup in He as [i Hi].
    destruct (Forall2_lookup_l _ _ _ i e Hids Hi) as (id & Hid & Heq).
    exists id. split; [exact Heq | by eapply list_elem_of_lookup_2].
  - intros Hone _ _.
    pose proof (cleaned_identifier_first _ _ _ _ _ Hclean Hone) as Hpos.
    eexists _, _. split; [by eapply get_info_ticker_run|].
    intros row Hrow Hin. cbn [rows].
    rewrite list_elem_of_In, filter_In, <- list_elem_of_In.
    split; [exact Hrow | by apply elem_of_member].
Qed.

(** C5. When [Session.get] raises one of the three classes named by the
    [except] clause, the fetcher shows the exception and the resolver
    prints it, and both then go on to read the variable the [try] block
    never bound: what reaches the caller is [UnboundLocalError], not the
    failure of the transport. *)
Theorem C5_transport_failure_unbound_local (t api_key : string) (s : state)
    (e : exn) :
  transport e = true ->
  (session_get (listings_request api_key) = Fails e ->
   get_data api_key s
   = (Raise (UnboundLocalError "data"),
      sent (sent s (Get (listings_request api_key))) (PutText (ShowExn e)))) /\
  (session_get (map_request (str_remove " " t) api_key) = Fails e ->
   get_ids t api_key s
   = (Raise (UnboundLocalError "id_map"),
      sent (sent s (Get (map_request (str_remove " " t) api_key))) (Print e))).
Proof.
  intros He. split; intros Hget.
  - rewrite get_data_run. cbn zeta. by rewrite Hget, He.
  - rewrite get_ids_run. cbn zeta. by rewrite Hget, He.
Qed.

(** No path of the fetcher reads the status code: a response of any
    status whose body carries a [data] entry is taken as the listing. *)
Lemma get_data_status_unchecked (api_key : string) (s : state) (code : Z)
    (body : string) (data listing : pyobj) (df : DataFrame) :
  session_get (listings_request api_key) = Replies (Response code body) ->
  json_loads body = Some data ->
  getitem_str data "data" = Ok listing ->
  json_normalize listing = Ok df ->
  get_data api_key s = (Ok df, sent s (Get (listings_request api_key))).
Proof.
  intros Hget Hloads Hdata Hnorm. rewrite get_data_run. cbn zeta.
  rewrite Hget. cbn [text]. rewrite Hloads, Hdata. cbn [result_bind].
  by rewrite Hnorm.
Qed.

(** A JSON body without a [data] entry, such as the provider's error
    payload, ends both calls in [KeyError]. *)
Lemma missing_data_is_key_error (t api_key : string) (s : state) (r : response)
    (kvs : list (string * pyobj)) :
  json_loads (text r) = Some (PDict kvs) ->
  getitem_str (PDict kvs) "data" = Raise (KeyError (PStr "data")) ->
  (session_get (listings_request api_key) = Replies r ->
   fst (get_data api_key s) = Raise (KeyError (PStr "data"))) /\
  (session_get (map_request (str_remove " " t) api_key) = Replies r ->
   fst (get_ids t api_key s) = Raise (KeyError (PStr "data"))).
Proof.
  intros Hloads Hkey. split; intros Hget.
  - rewrite get_data_run. cbn zeta. by rewrite Hget, Hloads, Hkey.
  - rewrite get_ids_run. cbn zeta. by rewrite Hget, Hloads, Hkey.
Qed.

(** A body that is not JSON ends both calls in [JSONDecodeError]. *)
Lemma malformed_body_propagates (t api_key : string) (s : state) (r : response) :
  json_loads (text r) = None ->
  (session_get (listings_request api_key) = Replies r ->
   fst (get_data api_key s) = Raise JSONDecodeError) /\
  (session_get (map_request (str_remove " " t) api_key) = Replies r ->
   fst (get_ids t api_key s) = Raise JSONDecodeError).
Proof.
  intros Hloads. split; intros Hget.
  - rewrite get_data_run. cbn zeta. by rewrite Hget, Hloads.
  - rewrite get_ids_run. cbn zeta. by rewrite Hget, Hloads.
Qed.

End Runs.

(** ** The same, run in the small world *)

Lemma C1_row_count_takes_first_rows_witness :
  exists df_cleaned s2 info_df,
    Main.get_info Demo.session_get Demo.json_loads Demo.json_normalize
                  Demo.to_html (QInt 2) "k" 1%positive (Demo.selected ["name"])
      = (Ok (Demo.listing, info_df, Demo.to_html info_df false), s2) /\
    columns info_df = columns df_cleaned /\
    rows info_df = take (Z.to_nat 2) (rows df_cleaned) /\
    Z.of_nat (length (rows info_df))
      = Z.min 2 (Z.of_nat (length (rows df_cleaned))).
Proof.
  eexists _, _.
  eapply (C1_row_count_takes_first_rows
            Demo.session_get Demo.json_loads Demo.json_normalize Demo.to_html
            2 "k" 1%positive (Demo.selected ["name"])).
  - vm_compute. reflexivity.
  - vm_compute. reflexivity.
  - lia.
Defined.

Lemma C2_ticker_rows_by_identifier_witness :
  let id_list := [PInt 1; PInt 9999; PInt 1027] in
  (exists df_cleaned s3 info_df,
     Main.get_info Demo.session_get Demo.json_loads Demo.json_normalize
                   Demo.to_html (QStr "BTC, ETH") "k" 1%positive
                   (Demo.selected ["name"])
       = (Ok (Demo.listing, info_df, Demo.to_html info_df false), s3) /\
     columns info_df = columns df_cleaned /\
     rows info_df
       = List.filter (fun r => member (first_cell r) id_list) (rows df_cleaned) /\
     sublist (rows info_df) (rows df_cleaned) /\
     (forall r, r ∈ rows info_df <->
        r ∈ rows df_cleaned /\
        exists id, id ∈ id_list /\ py_eqb (first_cell r) id = true) /\
     (forall r, integer (first_cell r) = true ->
        (r ∈ rows info_df <-> r ∈ rows df_cleaned /\ first_cell r ∈ id_list))) /\
  (exists s3 info_df,
     Main.get_info Demo.session_get Worlds.json_loads_unlisted
                   Demo.json_normalize Demo.to_html (QStr "BTC, ETH") "k"
                   1%positive (Demo.selected ["name"])
       = (Ok (Demo.listing, info_df, Demo.to_html info_df false), s3) /\
     rows info_df = []).
Proof.
  intros id_list. split.
  - edestruct (C2_ticker_rows_by_identifier
                 Demo.session_get Demo.json_loads Demo.json_normalize
                 Demo.to_html "BTC, ETH" "k" 1%positive (Demo.selected ["name"]))
      as (info_df & Hrun & Hcols & Hrows & Hsub & Hvalue & Hint & _);
      [vm_compute; reflexivity | vm_compute; reflexivity | reflexivity
      | vm_compute; reflexivity | repeat constructor | repeat constructor |].
    eexists _, _, info_df. split; [exact Hrun|]. split; [exact Hcols|].
    split; [exact Hrows|]. split; [exact Hsub|]. split; [exact Hvalue|].
    apply Hint. repeat constructor.
  - edestruct (C2_ticker_rows_by_identifier
                 Demo.session_get Worlds.json_loads_unlisted Demo.json_normalize
                 Demo.to_html "BTC, ETH" "k" 1%positive (Demo.selected ["name"]))
      as (info_df & Hrun & _ & _ & _ & _ & _ & Hnone);
      [vm_compute; reflexivity | vm_compute; reflexivity | reflexivity
      | vm_compute; reflexivity | repeat constructor | repeat constructor |].
    eexists _, info_df. split; [exact Hrun|]. apply Hnone. reflexivity.
Defined.

Lemma C4_spaces_removed_every_identifier_kept_witness :
  exists df_cleaned s2 ids,
    list_ascii_of_string (str_remove " " "BTC, ETH")
      = List.filter (fun c => negb (Ascii.eqb c " "))
                    (list_ascii_of_string "BTC, ETH") /\
    Main.get_ids Demo.session_get Demo.json_loads "BTC, ETH" "k" s2
      = (Ok ids, sent s2 (Get (map_request (str_remove " " "BTC, ETH") "k"))) /\
    (forall e, e ∈ [Demo.map_entry 1 "BTC"; Demo.map_entry 9999 "BTC";
                    Demo.map_entry 1027 "ETH"] ->
               exists id, getitem_str e "id" = Ok id /\ id ∈ ids) /\
    exists info_df s3,
      Main.get_info Demo.session_get Demo.json_loads Demo.json_normalize
                    Demo.to_html (QStr "BTC, ETH") "k" 1%positive
                    (Demo.selected ["name"])
        = (Ok (Demo.listing, info_df, Demo.to_html info_df false), s3) /\
      forall row, row ∈ rows df_cleaned -> first_cell row ∈ ids ->
                  row ∈ rows info_df.
Proof.
  edestruct (C4_spaces_removed_every_identifier_kept
               Demo.session_get Demo.json_loads Demo.json_normalize Demo.to_html
               "BTC, ETH" "k" 1%positive (Demo.selected ["name"]))
    with (df := Demo.listing) (r := Response 200 "map")
         (id_map := Demo.map_body) (ids := [PInt 1; PInt 9999; PInt 1027])
    as (Hspaces & Hids & Hall & Hrows);
    [vm_compute; reflexivity | vm_compute; reflexivity | reflexivity
    | reflexivity | reflexivity | repeat constructor |].
  eexists _, _, _. split; [exact Hspaces|]. split; [exact Hids|].
  split; [exact Hall|].
  apply Hrows; [reflexivity | repeat constructor | repeat constructor].
Defined.

(** C2, as stated, fails: with [id] ticked beside another column the
    relabeled frame has two identifier columns, the mask of the query
    is a frame that bears only those two labels, and the query ends in
    [ValueError] although the resolver has answered. *)
Lemma C2_identifier_ticked_value_error :
  exists s1 df_cleaned s2 s3,
    Main.get_data Demo.session_get Demo.json_loads Demo.json_normalize "k"
                  (Demo.selected ["id"; "name"])
      = (Ok Demo.listing, s1) /\
    clean_data Demo.listing 1%positive s1 = (Ok df_cleaned, s2) /\
    columns df_cleaned = ["id"; "id"; "name"] /\
    Main.get_ids Demo.session_get Demo.json_loads "BTC, ETH" "k" s2
      = (Ok [PInt 1; PInt 9999; PInt 1027], s3) /\
    Main.get_info Demo.session_get Demo.json_loads Demo.json_normalize
                  Demo.to_html (QStr "BTC, ETH") "k" 1%positive
                  (Demo.selected ["id"; "name"])
      = (Raise ValueError, s3).
Proof.
  eexists _, _, _, _. split; [vm_compute; reflexivity|].
  split; [vm_compute; reflexivity|]. split; [reflexivity|].
  split; vm_compute; reflexivity.
Qed.

Lemma C5_transport_failure_unbound_local_witness :
  Main.get_data Demo.unreachable Demo.json_loads Demo.json_normalize "k"
                Demo.fresh_state
  = (Raise (UnboundLocalError "data"),
     sent (sent Demo.fresh_state (Get (listings_request "k")))
          (PutText (ShowExn ConnectionError))) /\
  Main.get_ids Demo.unreachable Demo.json_loads "BTC" "k" Demo.fresh_state
  = (Raise (UnboundLocalError "id_map"),
     sent (sent Demo.fresh_state (Get (map_request (str_remove " " "BTC") "k")))
          (Print ConnectionError)).
Proof.
  destruct (C5_transport_failure_unbound_local
              Demo.unreachable Demo.json_loads Demo.json_normalize
              "BTC" "k" Demo.fresh_state ConnectionError eq_refl)
    as [Hdata Hids].
  split; [apply Hdata | apply Hids]; reflexivity.
Defined.

(** C4, as stated, fails: a tab is whitespace, and the resolver sends
    it to the provider. *)
Lemma C4_tab_is_not_stripped :
  let t := "BTC," +:+ String "009"%char "ETH" in
  requests (trace (snd (Main.get_ids Demo.session_get Demo.json_loads
                                     t "k" Demo.fresh_state)))
    = [map_request t "k"] /\
  all_chars (fun c => negb (whitespace c)) t = false.
Proof. split; reflexivity. Qed.

(** ** Writing and reading comma-separated text *)

Lemma append_assoc (a b c : string) : (a +:+ b) +:+ c = a +:+ (b +:+ c).
Proof.
  induction a as [|x a IH]; [reflexivity|].
  change (String x ((a +:+ b) +:+ c) = String x (a +:+ (b +:+ c))).
  by rewrite IH.
Qed.

Lemma append_empty_r (a : string) : a +:+ EmptyString = a.
Proof.
  induction a as [|x a IH]; [reflexivity|].
  change (String x (a +:+ EmptyString) = String x a). by rewrite IH.
Qed.

Lemma run_app (r : reader) (s1 s2 : string) :
  run r (s1 +:+ s2) = run (run r s1) s2.
Proof. revert r. induction s1 as [|c s1 IH]; intros r; simpl; [done | apply IH]. Qed.

Lemma run_cons_app (r : reader) (c : ascii) (s1 s2 : string) :
  run r (String c s1 +:+ s2) = run (step r c) (s1 +:+ s2).
Proof. reflexivity. Qed.

Lemma special_false (c : ascii) :
  special c = false ->
  Ascii.eqb c delimiter = false /\ Ascii.eqb c quotechar = false /\
  Ascii.eqb c LF = false.
Proof.
  unfold special. intros H.
  repeat (apply orb_false_iff in H as [H ?]). auto.
Qed.

(** An unquoted field without carriage return is read character by
    character. *)
Lemma run_in_field (R : list (list string)) (F : list string) (p f : string) :
  has_special f = false -> has_char CR f = false ->
  run (Reader R F p InField) f = Reader R F (p +:+ f) InField.
Proof.
  revert p. induction f as [|c f IH]; intros p Hf Hcr; simpl in *.
  - by rewrite append_empty_r.
  - apply orb_false_iff in Hf as [Hc Hf]. apply orb_false_iff in Hcr as [Hr Hcr].
    destruct (special_false c Hc) as (Hd & _ & Hl).
    unfold step. cbn [phase]. rewrite Hl, Hr, Hd. unfold add_char.
    cbn [records fields field]. rewrite (IH _ Hf Hcr), append_assoc. reflexivity.
Qed.

Lemma run_plain (R : list (list string)) (F : list string) (m : mode) (f : string) :
  starting m -> has_special f = false -> has_char CR f = false ->
  f <> EmptyString ->
  run (Reader R F EmptyString m) f = Reader R F f InField.
Proof.
  intros Hm Hf Hcr Hne. destruct f as [|c f]; [done|]. simpl in *.
  apply orb_false_iff in Hf as [Hc Hf]. apply orb_false_iff in Hcr as [Hr Hcr].
  destruct (special_false c Hc) as (Hd & Hq & Hl).
  assert (Hstep : step (Reader R F EmptyString m) c
                  = Reader R F (String c EmptyString) InField).
  { destruct Hm as [-> | ->]; unfold step, start; cbn [phase];
      by rewrite ?Hl, ?Hr, ?Hq, ?Hd. }
  rewrite Hstep. apply (run_in_field R F (String c EmptyString) f Hf Hcr).
Qed.

Lemma run_in_quoted (R : list (list string)) (F : list string) (p f : string) :
  run (Reader R F p InQuoted) (double_quotes f) = Reader R F (p +:+ f) InQuoted.
Proof.
  revert p. induction f as [|c f IH]; intros p; simpl.
  - by rewrite append_empty_r.
  - destruct (Ascii.eqb c quotechar) eqn:E.
    + apply Ascii.eqb_eq in E as ->. cbn [run]. unfold step at 2. cbn [phase].
      rewrite Ascii.eqb_refl. unfold step. cbn [phase].
      rewrite Ascii.eqb_refl. unfold add_char. cbn [records fields field].
      rewrite IH, append_assoc. reflexivity.
    + cbn [run]. unfold step. cbn [phase]. rewrite E. unfold add_char.
      cbn [records fields field]. rewrite IH, append_assoc. reflexivity.
Qed.

(** A quoted field is read up to its closing quote, carriage returns
    included. *)
Lemma run_quoted (R : list (list string)) (F : list string) (m : mode) (f : string) :
  starting m ->
  run (Reader R F EmptyString m) (quoted f) = Reader R F f QuoteSeen.
Proof.
  intros Hm. unfold quoted. cbn [run].
  assert (Hstep : step (Reader R F EmptyString m) quotechar
                  = Reader R F EmptyString InQuoted).
  { destruct Hm as [-> | ->]; reflexivity. }
  rewrite Hstep, run_app, run_in_quoted. reflexivity.
Qed.

Lemma run_quote_field (R : list (list string)) (F : list string) (m : mode)
    (f : string) :
  starting m -> bare_cr f = false ->
  field_read R F m f (run (Reader R F EmptyString m) (quote_field f)).
Proof.
  intros Hm Hcr. unfold quote_field, field_read. unfold bare_cr in Hcr.
  destruct (has_special f) eqn:Hf.
  - rewrite run_quoted by exact Hm. cbn. repeat split; auto.
  - rewrite andb_true_r in Hcr. destruct f as [|c f].
    + cbn. repeat split; auto.
    + rewrite run_plain by done. cbn. repeat split; auto.
Qed.

Lemma step_delimiter (R : list (list string)) (F : list string) (m : mode)
    (f : string) (r : reader) :
  starting m -> field_read R F m f r ->
  step r delimiter = Reader R (F ++ [f]) EmptyString StartField.
Proof.
  intros Hm (HR & HF & Hf & Hst). destruct r as [R' F' f' st]. cbn in *. subst.
  destruct Hst as [-> | [-> | [-> _]]]; [reflexivity | reflexivity |].
  destruct Hm as [-> | ->]; reflexivity.
Qed.

Lemma step_newline (R : list (list string)) (F : list string) (m : mode)
    (f : string) (r : reader) :
  field_read R F m f r -> m = StartField \/ f <> EmptyString \/ phase r = QuoteSeen ->
  step r LF = Reader (R ++ [F ++ [f]]) [] EmptyString StartRecord.
Proof.
  intros (HR & HF & Hf & Hst) Hm. destruct r as [R' F' f' st]. cbn in *. subst.
  destruct Hst as [-> | [-> | [-> ->]]]; [reflexivity | reflexivity |].
  destruct Hm as [-> | [? | ->]]; [reflexivity | done | reflexivity].
Qed.

(** The fields of a record, from a start state to the end of the line. *)
Lemma run_fields (fs : list string) (R : list (list string)) (F : list string)
    (m : mode) :
  Forall (fun f => bare_cr f = false) fs ->
  fs <> [] ->
  m = StartField \/ (m = StartRecord /\ fs <> [EmptyString]) ->
  run (Reader R F EmptyString m)
      (join_fields (map quote_field fs) +:+ String LF EmptyString)
  = Reader (R ++ [F ++ fs]) [] EmptyString StartRecord.
Proof.
  intros Hcr. revert F m.
  induction Hcr as [|f fs Hf Hfs IH]; intros F m Hne Hm; [done|].
  assert (Hstart : starting m) by (unfold starting; tauto).
  pose proof (run_quote_field R F m f Hstart Hf) as Hread.
  destruct fs as [|f' fs].
  - cbn [map join_fields]. rewrite run_app. cbn [run].
    apply (step_newline R F m f _ Hread).
    destruct Hm as [-> | [-> Hsole]]; [by left|].
    destruct (decide (f = EmptyString)) as [->|Hne']; [done | by right; left].
  - change (join_fields (map quote_field (f :: f' :: fs)))
      with (quote_field f +:+ String delimiter
              (join_fields (map quote_field (f' :: fs)))).
    rewrite append_assoc, run_app, run_cons_app.
    rewrite (step_delimiter R F m f _ Hstart Hread).
    rewrite (IH (F ++ [f]) StartField); [|done | by left].
    by rewrite <- app_assoc.
Qed.

Lemma run_writerow (R : list (list string)) (fs : list string) :
  Forall (fun f => bare_cr f = false) fs ->
  run (Reader R [] EmptyString StartRecord) (writerow fs)
  = Reader (R ++ [fs]) [] EmptyString StartRecord.
Proof.
  intros Hcr. unfold writerow.
  destruct (decide (fs = [])) as [->|Hne]; [reflexivity|].
  destruct (decide (fs = [EmptyString])) as [->|Hsole]; [reflexivity|].
  replace (match fs with
           | [EmptyString] => quoted EmptyString
           | _ => join_fields (map quote_field fs)
           end) with (join_fields (map quote_field fs)).
  - apply (run_fields fs R [] StartRecord Hcr Hne). right. by split.
  - destruct fs as [|[|c f] [|f' fs]]; done.
Qed.

Lemma run_writerows (R table : list (list string)) :
  Forall (Forall (fun f => bare_cr f = false)) table ->
  run (Reader R [] EmptyString StartRecord) (writerows table)
  = Reader (R ++ table) [] EmptyString StartRecord.
Proof.
  intros Hcr. revert R.
  induction Hcr as [|fs table Hfs _ IH]; intros R; simpl.
  - by rewrite app_nil_r.
  - rewrite run_app, run_writerow, IH, <- app_assoc by exact Hfs. reflexivity.
Qed.

(** A table in which no carriage return is left unquoted is read back
    from the text the writer makes of it. *)
Lemma read_records_writerows (table : list (list string)) :
  Forall (Forall (fun f => bare_cr f = false)) table ->
  read_records (writerows table) = Some table.
Proof. intros Hcr. unfold read_records. by rewrite run_writerows. Qed.

(** The numeral of an index label holds digits and a sign. *)
Lemma uint_no_cr (d : Decimal.uint) :
  has_char CR (NilEmpty.string_of_uint d) = false.
Proof. induction d; cbn [NilEmpty.string_of_uint has_char]; by rewrite ?IHd. Qed.

Lemma str_int_no_cr (z : Z) : bare_cr (str_int z) = false.
Proof.
  unfold bare_cr. apply andb_false_iff. left. unfold str_int.
  assert (H : forall d, has_char CR (NilZero.string_of_uint d) = false).
  { intros d. pose proof (uint_no_cr d) as Hd. by destruct d. }
  destruct (Z.to_int z) as [d|d]; cbn [NilZero.string_of_int has_char];
    by rewrite H.
Qed.

(** ** UTF-8 *)

Lemma decode_utf8_char (c : ascii) (bs : list Byte.byte) :
  decode_utf8 (utf8_char c ++ bs) = option_map (String c) (decode_utf8 bs).
Proof.
  destruct c as [[] [] [] [] [] [] [] []]; reflexivity.
Qed.

Lemma decode_encode_utf8 (s : string) : decode_utf8 (encode_utf8 s) = Some s.
Proof.
  induction s as [|c s IH]; [reflexivity|].
  cbn [encode_utf8]. by rewrite decode_utf8_char, IH.
Qed.

(** ** C8: the round trip *)

(** C8, as amended. For every frame in which no column name and no
    cell text holds a carriage return that the writer leaves unquoted,
    and whatever text pandas gives its cells, decoding and reading back
    what [to_csv] writes without the index yields the column names in
    their order and, row for row, the text of every cell; with the
    index, every record carries one more leading field: empty in the
    header, the label of the row elsewhere. *)
Theorem C8_export_then_parse (cell_text : pyobj -> string) (df : DataFrame) :
  Forall (fun f => bare_cr f = false) (columns df) ->
  Forall (fun r => Forall (fun c => bare_cr (cell_text c) = false) (cells r))
         (rows df) ->
  read_artifact (encode_utf8 (to_csv cell_text df false))
    = Some (columns df, map (fun r => map cell_text (cells r)) (rows df)) /\
  read_artifact (encode_utf8 (to_csv cell_text df true))
    = Some (EmptyString :: columns df,
            map (fun r => str_int (label r) :: map cell_text (cells r)) (rows df)).
Proof.
  intros Hcols Hrows. unfold read_artifact. rewrite !decode_encode_utf8.
  unfold read_text, to_csv.
  assert (Hbody : forall index,
    Forall (Forall (fun f => bare_cr f = false))
           (map (row_fields cell_text index) (rows df))).
  { intros index. apply Forall_map. eapply Forall_impl; [exact Hrows|].
    intros r Hr. unfold row_fields. apply Forall_app. split.
    - destruct index; [|constructor].
      constructor; [apply str_int_no_cr | constructor].
    - by apply Forall_map. }
  rewrite !read_records_writerows.
  - split; reflexivity.
  - constructor; [|apply Hbody]. unfold header_fields. by constructor.
  - constructor; [exact Hcols | apply Hbody].
Qed.

Lemma C8_export_then_parse_witness :
  read_artifact (encode_utf8 (to_csv Demo.cell_text Demo.listing false))
    = Some (columns Demo.listing,
            map (fun r => map Demo.cell_text (cells r)) (rows Demo.listing)) /\
  read_artifact (encode_utf8 (to_csv Demo.cell_text Demo.listing true))
    = Some (EmptyString :: columns Demo.listing,
            map (fun r => str_int (label r) :: map Demo.cell_text (cells r))
                (rows Demo.listing)).
Proof.
  apply (C8_export_then_parse Demo.cell_text Demo.listing);
    repeat constructor.
Defined.

(** C8, as stated, fails: a carriage return in a cell is written as it
    is, and the text of a frame of one row is read back as two
    records. *)
Lemma C8_carriage_return_splits_a_record :
  let name := "cr" +:+ String CR "here" in
  let df := Frame ["id"; "name"] [Row 0 [PInt 1; PStr name]] in
  to_csv Demo.cell_text df false
    = "id,name" +:+ String LF ("1," +:+ name +:+ String LF EmptyString) /\
  read_artifact (encode_utf8 (to_csv Demo.cell_text df false))
    = Some (["id"; "name"], [["1"; "cr"]; ["here"]]) /\
  read_artifact (encode_utf8 (to_csv Demo.cell_text df false))
    <> Some (columns df, map (fun r => map Demo.cell_text (cells r)) (rows df)).
Proof. repeat split; [vm_compute; reflexivity .. | discriminate]. Qed.

(** ** Running [task_func] *)

Section Task.

Variable session_get : request -> reply.
Variable json_loads : string -> option pyobj.
Variable json_normalize : pyobj -> result DataFrame.
Variable to_html : DataFrame -> bool -> string.
Variable cell_text : pyobj -> string.

Abbreviation get_data := (Main.get_data session_get json_loads json_normalize).
Abbreviation get_ids := (Main.get_ids session_get json_loads).
Abbreviation get_info :=
  (Main.get_info session_get json_loads json_normalize to_html).
Abbreviation task_func :=
  (Main.task_func session_get json_loads json_normalize to_html cell_text).

(** Every path through [task_func]. *)
Lemma task_func_run (api_key ticker_string : string) (column_ids : list string)
    (s : state) :
  task_func api_key ticker_string column_ids s
  = match query_of ticker_string with
    | Raise e => (Raise e, greeted s)
    | Ok q =>
        match get_info q api_key (checkbox_list s) (answered s column_ids) with
        | (Ok (df, info_df, info_html), s') =>
            (Ok tt,
             State (heap s') (trace s' ++ exports cell_text df info_df info_html))
        | (Raise e, s') => (Raise e, s')
        end
    end.
Proof.
  unfold Main.task_func, query_of, mbind, IO_bind, put_markdown, emit, lift, alloc.
  cbn [heap trace]. destruct (isdigit ticker_string).
  - destruct (int ticker_string) as [n|e]; cbn [result_bind]; [|reflexivity].
    cbn [mret IO_ret]. fold (checkbox_list s).
    change (State (<[checkbox_list s := column_ids]> (heap s)) _)
      with (answered s column_ids).
    destruct (Main.get_info _ _ _ _ _ _ _ _) as [[[[df info_df] info_html]|e] s'];
      [|reflexivity].
    unfold put_html, put_text, put_file, emit, exports. cbn [heap trace].
    by rewrite <- !app_assoc.
  - cbn [mret IO_ret]. fold (checkbox_list s).
    change (State (<[checkbox_list s := column_ids]> (heap s)) _)
      with (answered s column_ids).
    destruct (Main.get_info _ _ _ _ _ _ _ _) as [[[[df info_df] info_html]|e] s'];
      [|reflexivity].
    unfold put_html, put_text, put_file, emit, exports. cbn [heap trace].
    by rewrite <- !app_assoc.
Qed.

Lemma files_app (tr1 tr2 : list event) : files (tr1 ++ tr2) = files tr1 ++ files tr2.
Proof.
  induction tr1 as [|ev tr1 IH]; [done|]. destruct ev; simpl; by rewrite IH.
Qed.

Lemma requests_app (tr1 tr2 : list event) :
  requests (tr1 ++ tr2) = requests tr1 ++ requests tr2.
Proof.
  induction tr1 as [|ev tr1 IH]; [done|]. destruct ev; simpl; by rewrite IH.
Qed.

(** The fetcher starts by sending the listings request, and offers no
    download. *)
Lemma get_data_trace (api_key : string) (s : state) :
  exists tr,
    trace (snd (get_data api_key s))
    = trace s ++ Get (listings_request api_key) :: tr /\ files tr = [].
Proof.
  rewrite get_data_run. cbn zeta.
  destruct (session_get _) as [e|r].
  - destruct (transport e); cbn [snd sent trace heap].
    + exists [PutText (ShowExn e)]. by rewrite <- app_assoc.
    + by exists [].
  - destruct (json_loads _); cbn [snd sent trace heap]; by exists [].
Qed.

Lemma clean_data_trace (df : DataFrame) (l : loc) (s : state) :
  trace (snd (clean_data df l s)) = trace s.
Proof.
  unfold clean_data, mbind, IO_bind, list_insert, read, lift.
  destruct (heap s !! l) as [selection|]; [|reflexivity].
  cbn [heap]. rewrite lookup_insert_eq.
  by destruct (getitem_list _ _).
Qed.

Lemma get_ids_trace (t api_key : string) (s : state) :
  exists tr, trace (snd (get_ids t api_key s)) = trace s ++ tr /\ files tr = [].
Proof.
  rewrite get_ids_run. cbn zeta.
  destruct (session_get _) as [e|r].
  - destruct (transport e); cbn [snd sent trace heap].
    + eexists [_; _]. by rewrite <- app_assoc.
    + by eexists [_].
  - destruct (json_loads _); cbn [snd sent trace heap]; by eexists [_].
Qed.

(** So does [get_info], whatever the query. *)
Lemma get_info_trace (q : query) (api_key : string) (l : loc) (s : state) :
  exists tr,
    trace (snd (get_info q api_key l s))
    = trace s ++ Get (listings_request api_key) :: tr /\ files tr = [].
Proof.
  destruct (get_data_trace api_key s) as (tr1 & Htr1 & Hf1).
  unfold Main.get_info, mbind, IO_bind.
  destruct (Main.get_data _ _ _ api_key s) as [[df|e] s1]; cbn [snd] in *;
    [|by exists tr1].
  pose proof (clean_data_trace df l s1) as Htr2.
  destruct (clean_data df l s1) as [[df_cleaned|e] s2]; cbn [snd] in *;
    [|exists tr1; by rewrite Htr2].
  destruct q as [t|n]; [|exists tr1; cbn; by rewrite Htr2].
  destruct (get_ids_trace t api_key s2) as (tr3 & Htr3 & Hf3).
  destruct (Main.get_ids _ _ t api_key s2) as [[id_list|e] s3]; cbn [snd] in *.
  - exists (tr1 ++ tr3). split; [|by rewrite files_app, Hf1, Hf3].
    unfold lift, raise.
    destruct (getitem_label df_cleaned "id") as [[values|sub]|e];
      [destruct (getitem_bool _ _)|destruct (getitem_frame _ _ _)|];
      cbn [snd mret IO_ret];
      rewrite Htr3, Htr2, Htr1, <- !app_assoc; reflexivity.
  - exists (tr1 ++ tr3). split; [|by rewrite files_app, Hf1, Hf3].
    rewrite Htr3, Htr2, Htr1, <- !app_assoc; reflexivity.
Qed.

Lemma mask_sublist (rs : list row) (mask : list bool) :
  sublist (map fst (List.filter snd (combine rs mask))) rs.
Proof.
  revert mask. induction rs as [|r rs IH]; intros [|b mask]; simpl;
    try apply sublist_nil_l.
  destruct b; simpl; constructor; apply IH.
Qed.

Lemma zip_with_labels (f : row -> list bool -> row) (rs : list row)
    (mask : list (list bool)) :
  (forall r m, label (f r m) = label r) ->
  sublist (map label (zip_with f rs mask)) (map label rs).
Proof.
  intros Hf. revert mask.
  induction rs as [|r rs IH]; intros [|m mask]; cbn; try apply sublist_nil_l.
  rewrite Hf. constructor. apply IH.
Qed.

(** [where] keeps the index labels. *)
Lemma where_labels (df : DataFrame) (mask : list (list bool)) :
  sublist (map label (rows (frame_where df mask))) (map label (rows df)).
Proof. unfold frame_where. cbn [rows]. by apply zip_with_labels. Qed.

(** What a successful [get_info] has done: the first frame it returns is
    the one the fetcher built; the second has the columns of the
    relabeled frame, and its rows bear index labels of that frame, in
    their order; when the relabeled frame has one identifier column,
    they are rows of that frame. *)
Lemma get_info_inv (q : query) (api_key : string) (l : loc) (s s' : state)
    (df info_df : DataFrame) (info_html : string) :
  get_info q api_key l s = (Ok (df, info_df, info_html), s') ->
  exists s1 df_cleaned s2,
    get_data api_key s = (Ok df, s1) /\
    clean_data df l s1 = (Ok df_cleaned, s2) /\
    columns info_df = columns df_cleaned /\
    sublist (map label (rows info_df)) (map label (rows df_cleaned)) /\
    (count_occ string_dec (columns df_cleaned) "id" = 1%nat ->
     sublist (rows info_df) (rows df_cleaned)) /\
    info_html = to_html info_df false.
Proof.
  unfold Main.get_info, mbind, IO_bind.
  destruct (Main.get_data _ _ _ api_key s) as [[df0|e] s1] eqn:Hdata;
    [|discriminate].
  destruct (clean_data df0 l s1) as [[df_cleaned|e] s2] eqn:Hclean;
    [|discriminate].
  destruct q as [t|n].
  - destruct (Main.get_ids _ _ t api_key s2) as [[id_list|e] s3]; [|discriminate].
    unfold lift, raise.
    destruct (getitem_label df_cleaned "id") as [[values|sub]|e] eqn:Hlabel;
      [| |discriminate].
    + unfold getitem_bool. destruct (Nat.eqb _ _); [|discriminate].
      intros [= <- <- <- <-]. exists s1, df_cleaned, s2.
      repeat split; try reflexivity; try assumption.
      * apply (fmap_sublist label), mask_sublist.
      * intros _. apply mask_sublist.
    + unfold getitem_frame. destruct (decide _); [|discriminate].
      intros [= <- <- <- <-]. exists s1, df_cleaned, s2.
      repeat split; try reflexivity; try assumption.
      * apply where_labels.
      * intros Hone.
        pose proof (cleaned_identifier_first _ _ _ _ _ Hclean Hone) as Hpos.
        unfold getitem_label in Hlabel. rewrite Hpos in Hlabel. discriminate.
  - intros [= <- <- <- <-]. exists s1, df_cleaned, s2.
    repeat split; try reflexivity; try assumption.
    + apply (fmap_sublist label), sublist_take.
    + intros _. apply sublist_take.
Qed.

(** ** C6, C7: validation and the downloads *)

(** C6, as amended. No query string is checked before the provider is
    called: a string of decimal digits (as many as [int] converts)
    becomes the row count it spells, whatever its value, every string
    for which [isdigit] fails is kept as a ticker string, and in both
    cases the first thing the run does after its two headings is to
    send the listings request. *)
Theorem C6_listing_requested_without_validation (api_key ticker_string : string)
    (column_ids : list string) (s : state) :
  isdigit ticker_string = false \/
  (all_chars is_decimal ticker_string = true /\
   (String.length ticker_string <= max_str_digits)%nat) ->
  exists q after,
    query_of ticker_string = Ok q /\
    (isdigit ticker_string = false -> q = QStr ticker_string) /\
    (isdigit ticker_string = true -> q = QInt (int_digits 0 ticker_string)) /\
    trace (snd (task_func api_key ticker_string column_ids s))
    = trace s
      ++ [PutMarkdown "# CryptoTableMaker"; PutMarkdown about;
          Get (listings_request api_key)]
      ++ after.
Proof.
  intros Hq.
  assert (Hquery : exists q, query_of ticker_string = Ok q /\
            (isdigit ticker_string = false -> q = QStr ticker_string) /\
            (isdigit ticker_string = true ->
             q = QInt (int_digits 0 ticker_string))).
  { unfold query_of, int. destruct (isdigit ticker_string) eqn:Hd.
    - destruct Hq as [Hq | [-> Hlen%Nat.leb_le]]; [discriminate|].
      rewrite Hlen. eexists. by repeat split.
    - eexists. by repeat split. }
  destruct Hquery as (q & Hquery & Hstr & Hint).
  destruct (get_info_trace q api_key (checkbox_list s) (answered s column_ids))
    as (tr & Htr & _).
  rewrite task_func_run, Hquery.
  destruct (Main.get_info _ _ _ _ _ _ _ _)
    as [[[[df info_df] info_html]|e] s'] eqn:E; cbn [snd] in Htr |- *.
  - exists q, (tr ++ exports cell_text df info_df info_html).
    repeat split; try assumption. cbn [trace]. rewrite Htr.
    cbn [answered greeted sent trace]. by rewrite <- !app_assoc.
  - exists q, tr. repeat split; try assumption. rewrite Htr.
    cbn [answered greeted sent trace]. by rewrite <- !app_assoc.
Qed.

(** C7, as amended. Every run in which [get_info] returns offers
    exactly two downloads, both UTF-8 encoded comma-separated text: the
    filtered one is the query result (the columns of the relabeled
    frame, under index labels of that frame in their order; rows of
    that frame when it has one identifier column) written without the
    index, its first record being the column names in order; the
    unfiltered one is the frame as the fetcher built it, neither
    projected nor relabeled, written with the index, its first record
    being an empty field followed by the column names in order. *)
Theorem C7_two_downloads_filtered_and_fetched (api_key ticker_string : string)
    (column_ids : list string) (s s' : state) (q : query)
    (df info_df : DataFrame) (info_html : string) :
  query_of ticker_string = Ok q ->
  get_info q api_key (checkbox_list s) (answered s column_ids)
    = (Ok (df, info_df, info_html), s') ->
  let filtered := encode_utf8 (to_csv cell_text info_df false) in
  let unfiltered := encode_utf8 (to_csv cell_text df true) in
  fst (task_func api_key ticker_string column_ids s) = Ok tt /\
  files (trace (snd (task_func api_key ticker_string column_ids s)))
    = files (trace s)
      ++ [("CMC_filtered.csv", filtered); ("CMC_unfiltered.csv", unfiltered)] /\
  (exists s1 df_cleaned s2,
     get_data api_key (answered s column_ids) = (Ok df, s1) /\
     clean_data df (checkbox_list s) s1 = (Ok df_cleaned, s2) /\
     columns info_df = columns df_cleaned /\
     sublist (map label (rows info_df)) (map label (rows df_cleaned)) /\
     (count_occ string_dec (columns df_cleaned) "id" = 1%nat ->
      sublist (rows info_df) (rows df_cleaned))) /\
  decode_utf8 filtered
    = Some (writerow (columns info_df)
            +:+ writerows (map (row_fields cell_text false) (rows info_df))) /\
  decode_utf8 unfiltered
    = Some (writerow (EmptyString :: columns df)
            +:+ writerows (map (row_fields cell_text true) (rows df))).
Proof.
  intros Hquery Hinfo filtered unfiltered.
  destruct (get_info_trace q api_key (checkbox_list s) (answered s column_ids))
    as (tr & Htr & Hfiles).
  rewrite task_func_run, Hquery, Hinfo. rewrite Hinfo in Htr. cbn [fst snd] in *.
  split; [reflexivity|]. split.
  - cbn [trace]. rewrite Htr. cbn [answered greeted sent trace].
    rewrite !files_app. cbn [files]. rewrite Hfiles, !app_nil_r. reflexivity.
  - split.
    + destruct (get_info_inv _ _ _ _ _ _ _ _ Hinfo)
        as (s1 & df_cleaned & s2 & H1 & H2 & H3 & H4 & H5 & _).
      by exists s1, df_cleaned, s2.
    + unfold filtered, unfiltered. rewrite !decode_encode_utf8.
      split; reflexivity.
Qed.

End Task.

Lemma C6_listing_requested_without_validation_witness :
  exists q after,
    query_of "500" = Ok q /\
    (isdigit "500" = false -> q = QStr "500") /\
    (isdigit "500" = true -> q = QInt (int_digits 0 "500")) /\
    trace (snd (Demo.run_task "k" "500" ["name"]))
    = trace Demo.fresh_state
      ++ [PutMarkdown "# CryptoTableMaker"; PutMarkdown about;
          Get (listings_request "k")]
      ++ after.
Proof.
  apply (C6_listing_requested_without_validation
           Demo.session_get Demo.json_loads Demo.json_normalize Demo.to_html
           Demo.cell_text "k" "500" ["name"] Demo.fresh_state).
  right. split; [reflexivity | vm_compute; lia].
Defined.

(** C6, as stated, fails: a count above 100 and a blank ticker list are
    both sent on to the provider, and the first of them ends without any
    exception. *)
Lemma C6_invalid_queries_reach_the_provider :
  valid_query "500" = false /\
  fst (Demo.run_task "k" "500" ["name"]) = Ok tt /\
  requests (trace (snd (Demo.run_task "k" "500" ["name"])))
    = [listings_request "k"] /\
  valid_query "  " = false /\
  requests (trace (snd (Demo.run_task "k" "  " ["name"])))
    = [listings_request "k"; map_request EmptyString "k"].
Proof. repeat split; vm_compute; reflexivity. Qed.

Lemma C7_two_downloads_filtered_and_fetched_witness :
  exists info_df,
    let filtered := encode_utf8 (to_csv Demo.cell_text info_df false) in
    let unfiltered := encode_utf8 (to_csv Demo.cell_text Demo.listing true) in
    fst (Demo.run_task "k" "BTC, ETH" ["id"]) = Ok tt /\
    files (trace (snd (Demo.run_task "k" "BTC, ETH" ["id"])))
      = files (trace Demo.fresh_state)
        ++ [("CMC_filtered.csv", filtered); ("CMC_unfiltered.csv", unfiltered)] /\
    (exists s1 df_cleaned s2,
       Main.get_data Demo.session_get Demo.json_loads Demo.json_normalize "k"
                     (answered Demo.fresh_state ["id"])
         = (Ok Demo.listing, s1) /\
       clean_data Demo.listing (checkbox_list Demo.fresh_state) s1
         = (Ok df_cleaned, s2) /\
       columns info_df = columns df_cleaned /\
       sublist (map label (rows info_df)) (map label (rows df_cleaned)) /\
       (count_occ string_dec (columns df_cleaned) "id" = 1%nat ->
        sublist (rows info_df) (rows df_cleaned))) /\
    decode_utf8 filtered
      = Some (writerow (columns info_df)
              +:+ writerows (map (row_fields Demo.cell_text false) (rows info_df))) /\
    decode_utf8 unfiltered
      = Some (writerow (EmptyString :: columns Demo.listing)
              +:+ writerows (map (row_fields Demo.cell_text true)
                                 (rows Demo.listing))).
Proof.
  eexists.
  eapply (C7_two_downloads_filtered_and_fetched
            Demo.session_get Demo.json_loads Demo.json_normalize Demo.to_html
            Demo.cell_text "k" "BTC, ETH" ["id"] Demo.fresh_state).
  - reflexivity.
  - vm_compute. reflexivity.
Defined.

(** C7, as stated, fails: the unfiltered download is not the relabeled
    frame.  With the column [symbol] selected, the relabeled frame has
    the columns [id] and [ticker]; the unfiltered download is the text
    of the frame as fetched, with its four columns under their raw
    names. *)
Lemma C7_unfiltered_is_not_relabeled :
  exists df_cleaned s2 filtered unfiltered,
    clean_data Demo.listing 1%positive (Demo.selected ["symbol"])
      = (Ok df_cleaned, s2) /\
    columns df_cleaned = ["id"; "ticker"] /\
    files (trace (snd (Demo.run_task "k" "2" ["symbol"])))
      = [("CMC_filtered.csv", filtered); ("CMC_unfiltered.csv", unfiltered)] /\
    unfiltered <> encode_utf8 (to_csv Demo.cell_text df_cleaned true) /\
    unfiltered = encode_utf8 (to_csv Demo.cell_text Demo.listing true) /\
    read_artifact unfiltered
      = Some (EmptyString :: ["id"; "name"; "symbol"; "cmc_rank"],
              map (row_fields Demo.cell_text true) (rows Demo.listing)).
Proof.
  eexists _, _, _, _. split; [vm_compute; reflexivity|].
  split; [reflexivity|]. split; [vm_compute; reflexivity|].
  split; [|split; vm_compute; reflexivity].
  intros H. vm_compute in H. discriminate H.
Qed.

(** * Further properties of [main.py] *)

(** ** The fetcher and the resolver *)

Lemma results_app (tr1 tr2 : list event) :
  results (tr1 ++ tr2) = results tr1 ++ results tr2.
Proof. apply List.filter_app. Qed.

Lemma find_absent_key (kvs : list (string * pyobj)) (key : string) :
  Forall (fun kv => fst kv <> key) kvs ->
  List.find (fun kv => String.eqb (fst kv) key) kvs = None.
Proof.
  induction 1 as [|kv kvs Hkv _ IH]; [reflexivity|].
  cbn [List.find]. by destruct (String.eqb_spec (fst kv) key).
Qed.

Section Calls.

Variable session_get : request -> reply.
Variable json_loads : string -> option pyobj.
Variable json_normalize : pyobj -> result DataFrame.

Abbreviation get_data := (Main.get_data session_get json_loads json_normalize).
Abbreviation get_ids := (Main.get_ids session_get json_loads).

(** X1. Whatever the provider does, [get_data] and [get_ids] each send
    exactly one request, the listings request and the map request for
    the ticker string without its spaces; neither shows a table or
    offers a download, and neither touches the heap. *)
Theorem X1_one_request_per_call (t api_key : string) (s : state) :
  (requests (trace (snd (get_data api_key s)))
     = requests (trace s) ++ [listings_request api_key] /\
   results (trace (snd (get_data api_key s))) = results (trace s) /\
   heap (snd (get_data api_key s)) = heap s) /\
  (requests (trace (snd (get_ids t api_key s)))
     = requests (trace s) ++ [map_request (str_remove " " t) api_key] /\
   results (trace (snd (get_ids t api_key s))) = results (trace s) /\
   heap (snd (get_ids t api_key s)) = heap s).
Proof.
  split.
  - rewrite get_data_run. cbn zeta.
    destruct (session_get _) as [e|r];
      [destruct (transport e) | destruct (json_loads _)];
      cbn [snd sent trace heap];
      rewrite ?requests_app, ?results_app, ?app_nil_r, <- ?app_assoc;
      repeat split; cbn; by rewrite ?app_nil_r.
  - rewrite get_ids_run. cbn zeta.
    destruct (session_get _) as [e|r];
      [destruct (transport e) | destruct (json_loads _)];
      cbn [snd sent trace heap];
      rewrite ?requests_app, ?results_app, ?app_nil_r, <- ?app_assoc;
      repeat split; cbn; by rewrite ?app_nil_r.
Qed.

(** X2. A failure of [Session.get] outside the three classes of the
    [except] clauses leaves both functions as it is: nothing is shown
    or printed, and the caller receives that very exception. *)
Theorem X2_other_failures_propagate (t api_key : string) (s : state) (e : exn) :
  transport e = false ->
  (session_get (listings_request api_key) = Fails e ->
   get_data api_key s = (Raise e, sent s (Get (listings_request api_key)))) /\
  (session_get (map_request (str_remove " " t) api_key) = Fails e ->
   get_ids t api_key s
   = (Raise e, sent s (Get (map_request (str_remove " " t) api_key)))).
Proof.
  intros He. split; intros Hget.
  - rewrite get_data_run. cbn zeta. by rewrite Hget, He.
  - rewrite get_ids_run. cbn zeta. by rewrite Hget, He.
Qed.

(** X4. When the body of the listings reply is JSON but has no [data]
    entry, as the provider's error payload, [get_data] ends in
    [KeyError] for that key; when the body is JSON but no object at
    all, it ends in [TypeError].  No frame is built in either case. *)
Theorem X4_listing_body_without_data (api_key : string) (s : state)
    (r : response) (v : pyobj) :
  session_get (listings_request api_key) = Replies r ->
  json_loads (text r) = Some v ->
  (forall kvs, v = PDict kvs ->
     Forall (fun kv => fst kv <> "data") kvs ->
     get_data api_key s
     = (Raise (KeyError (PStr "data")), sent s (Get (listings_request api_key)))) /\
  ((forall kvs, v <> PDict kvs) ->
     get_data api_key s
     = (Raise TypeError, sent s (Get (listings_request api_key)))).
Proof.
  intros Hget Hloads. rewrite get_data_run. cbn zeta. rewrite Hget, Hloads.
  split.
  - intros kvs -> Hkeys. cbn [getitem_str].
    by rewrite (find_absent_key kvs "data" Hkeys).
  - intros Hv. destruct v; try reflexivity. by destruct (Hv kvs).
Qed.

(** The loop stops at the first entry that has no identifier. *)
Lemma collect_ids_stops (id_map : pyobj) (entries before done todo : list pyobj)
    (e : pyobj) (acc ids : list pyobj) (err : exn) :
  getitem_str id_map "data" = Ok (PList entries) ->
  entries = before ++ done ++ e :: todo ->
  Forall2 (fun e id => getitem_str e "id" = Ok id) done ids ->
  getitem_str e "id" = Raise err ->
  collect_ids id_map (seq (length before) (length (done ++ e :: todo))) acc
  = Raise err.
Proof.
  intros Hdata. revert before acc ids.
  induction done as [|d done IH]; intros before acc ids Hent Hids He.
  - cbn [app length seq collect_ids]. rewrite Hdata.
    cbn [result_bind getitem_int].
    assert (Hn : nth_error entries (length before) = Some e).
    { rewrite Hent, nth_error_app2, Nat.sub_diag by lia. reflexivity. }
    rewrite Hn. cbn [result_bind]. by rewrite He.
  - apply Forall2_cons_inv_l in Hids as (id & ids' & Hid & Hids & ->).
    cbn [app length seq collect_ids]. rewrite Hdata.
    cbn [result_bind getitem_int].
    assert (Hn : nth_error entries (length before) = Some d).
    { rewrite Hent, nth_error_app2, Nat.sub_diag by lia. reflexivity. }
    rewrite Hn. cbn [result_bind]. rewrite Hid. cbn [result_bind].
    specialize (IH (before ++ [d]) (acc ++ [id]) ids').
    rewrite length_app, Nat.add_1_r in IH.
    apply IH; [|exact Hids | exact He].
    by rewrite Hent, <- app_assoc.
Qed.

(** X5. When an entry of the provider's map has no [id], [get_ids] ends
    in the [KeyError] of that lookup: the identifiers collected before
    it are lost, and no list is returned. *)
Theorem X5_entry_without_identifier (t api_key : string) (s : state)
    (r : response) (id_map e : pyobj) (done todo ids : list pyobj) (err : exn) :
  session_get (map_request (str_remove " " t) api_key) = Replies r ->
  json_loads (text r) = Some id_map ->
  getitem_str id_map "data" = Ok (PList (done ++ e :: todo)) ->
  Forall2 (fun e id => getitem_str e "id" = Ok id) done ids ->
  getitem_str e "id" = Raise err ->
  get_ids t api_key s
  = (Raise err, sent s (Get (map_request (str_remove " " t) api_key))).
Proof.
  intros Hget Hloads Hdata Hids He. rewrite get_ids_run. cbn zeta.
  rewrite Hget, Hloads, Hdata. cbn [result_bind len]. f_equal.
  apply (collect_ids_stops id_map (done ++ e :: todo) [] done todo e [] ids err);
    done.
Qed.

End Calls.

Lemma X2_other_failures_propagate_witness :
  Main.get_data Worlds.refused Demo.json_loads Demo.json_normalize "k"
                Demo.fresh_state
  = (Raise RequestException, sent Demo.fresh_state (Get (listings_request "k"))) /\
  Main.get_ids Worlds.refused Demo.json_loads "BTC" "k" Demo.fresh_state
  = (Raise RequestException,
     sent Demo.fresh_state (Get (map_request (str_remove " " "BTC") "k"))).
Proof.
  destruct (X2_other_failures_propagate
              Worlds.refused Demo.json_loads Demo.json_normalize
              "BTC" "k" Demo.fresh_state RequestException eq_refl)
    as [Hdata Hids].
  split; [apply Hdata | apply Hids]; reflexivity.
Defined.

Lemma X4_listing_body_without_data_witness :
  Main.get_data Worlds.unauthorized Demo.json_loads Demo.json_normalize "k"
                Demo.fresh_state
  = (Raise (KeyError (PStr "data")),
     sent Demo.fresh_state (Get (listings_request "k"))).
Proof.
  destruct (X4_listing_body_without_data
              Worlds.unauthorized Demo.json_loads Demo.json_normalize
              "k" Demo.fresh_state (Response 401 "error") Demo.error_body
              eq_refl eq_refl) as [Hdict _].
  apply (Hdict [("status", PDict [("error_code", PInt 400)])] eq_refl).
  repeat constructor. discriminate.
Defined.

Lemma X5_entry_without_identifier_witness :
  Main.get_ids Demo.session_get Worlds.json_loads_partial "BTC, ETH" "k"
               Demo.fresh_state
  = (Raise (KeyError (PStr "id")),
     sent Demo.fresh_state (Get (map_request (str_remove " " "BTC, ETH") "k"))).
Proof.
  apply (X5_entry_without_identifier
           Demo.session_get Worlds.json_loads_partial "BTC, ETH" "k"
           Demo.fresh_state (Response 200 "map")
           (PDict [("data", PList [Demo.map_entry 1 "BTC";
                                   PDict [("symbol", PStr "ETH")]])])
           (PDict [("symbol", PStr "ETH")]) [Demo.map_entry 1 "BTC"] []
           [PInt 1] (KeyError (PStr "id"))).
  - reflexivity.
  - reflexivity.
  - reflexivity.
  - repeat constructor.
  - reflexivity.
Defined.

(** ** The status code *)

Section Status.

Variable p1 p2 : request -> reply.
Variable json_loads : string -> option pyobj.
Variable json_normalize : pyobj -> result DataFrame.
Variable to_html : DataFrame -> bool -> string.
Variable cell_text : pyobj -> string.
Hypothesis Hsame : same_bodies p1 p2.

Lemma get_data_same (api_key : string) (s : state) :
  Main.get_data p1 json_loads json_normalize api_key s
  = Main.get_data p2 json_loads json_normalize api_key s.
Proof.
  rewrite !get_data_run. cbn zeta.
  pose proof (Hsame (listings_request api_key)) as H.
  destruct (p1 _) as [e1|r1], (p2 _) as [e2|r2]; try done.
  - by subst.
  - by rewrite H.
Qed.

Lemma get_ids_same (t api_key : string) (s : state) :
  Main.get_ids p1 json_loads t api_key s = Main.get_ids p2 json_loads t api_key s.
Proof.
  rewrite !get_ids_run. cbn zeta.
  pose proof (Hsame (map_request (str_remove " " t) api_key)) as H.
  destruct (p1 _) as [e1|r1], (p2 _) as [e2|r2]; try done.
  - by subst.
  - by rewrite H.
Qed.

Lemma get_info_same (q : query) (api_key : string) (l : loc) (s : state) :
  Main.get_info p1 json_loads json_normalize to_html q api_key l s
  = Main.get_info p2 json_loads json_normalize to_html q api_key l s.
Proof.
  unfold Main.get_info, mbind, IO_bind. rewrite get_data_same.
  destruct (Main.get_data p2 _ _ _ _) as [[df|e] s1]; [|reflexivity].
  destruct (clean_data df l s1) as [[df_cleaned|e] s2]; [|reflexivity].
  destruct q as [t|n]; [|reflexivity]. by rewrite get_ids_same.
Qed.

(** X3. The program never reads the status code of a response: with two
    providers that raise the same exceptions and return the same
    bodies, under whatever status codes, every run of [task_func] ends
    the same way and leaves the same trace. *)
Theorem X3_status_code_never_read (api_key ticker_string : string)
    (column_ids : list string) (s : state) :
  Main.task_func p1 json_loads json_normalize to_html cell_text
                 api_key ticker_string column_ids s
  = Main.task_func p2 json_loads json_normalize to_html cell_text
                   api_key ticker_string column_ids s.
Proof.
  rewrite !task_func_run. destruct (query_of ticker_string) as [q|e]; [|reflexivity].
  by rewrite get_info_same.
Qed.

End Status.

Lemma X3_status_code_never_read_witness :
  Main.task_func Demo.session_get Demo.json_loads Demo.json_normalize
                 Demo.to_html Demo.cell_text "k" "BTC, ETH" ["name"]
                 Demo.fresh_state
  = Main.task_func Worlds.failing_status Demo.json_loads Demo.json_normalize
                   Demo.to_html Demo.cell_text "k" "BTC, ETH" ["name"]
                   Demo.fresh_state.
Proof.
  apply (X3_status_code_never_read Demo.session_get Worlds.failing_status).
  intros rq. unfold Worlds.failing_status.
  destruct (Demo.session_get rq); reflexivity.
Defined.

(** ** More on [clean_data] *)

Lemma selected_labels_distinct (keys cols : list string) :
  NoDup cols -> keys ⊆ cols -> selected_labels keys cols = keys.
Proof.
  intros Hnd%NoDup_ListNoDup Hsub. unfold selected_labels.
  induction keys as [|k keys IH]; [reflexivity|]. cbn [map concat].
  rewrite IH by (intros x Hx; apply Hsub; by right).
  assert (Hk : count_occ string_dec cols k = 1%nat).
  { pose proof (proj1 (NoDup_count_occ string_dec _) Hnd k).
    assert (Hin : k ∈ cols) by (apply Hsub; by left).
    apply list_elem_of_In, (count_occ_In string_dec) in Hin. lia. }
  by rewrite Hk.
Qed.

Lemma cleaned_columns_of_selection (df : DataFrame) (selection : list string) :
  NoDup (columns df) -> "id" ∈ columns df -> selection ⊆ columns df ->
  columns (rename (take_columns
                     (concat (map (fun k => positions k (columns df))
                                  ("id" :: selection)))
                     df) relabeling_map)
  = "id" :: map (relabel relabeling_map) selection.
Proof.
  intros Hnd Hid Hsub. cbn [rename take_columns columns].
  rewrite (indexer_labels ("id" :: selection)), selected_labels_distinct;
    [reflexivity | exact Hnd |].
  intros k [->|Hk]%elem_of_cons; auto.
Qed.

(** X6. When the selection names a column the frame does not have (or
    the frame has no [id] column), [clean_data] ends in [KeyError] for
    the absent names, and the caller's list has been given its leading
    [id] all the same. *)
Theorem X6_absent_column_key_error (dataframe : DataFrame) (l : loc)
    (selection : list string) (s : state) (k : string) :
  heap s !! l = Some selection ->
  k ∈ "id" :: selection ->
  k ∉ columns dataframe ->
  exists missing,
    clean_data dataframe l s
    = (Raise (KeyError (PList (map PStr missing))),
       State (<[l := "id" :: selection]> (heap s)) (trace s)) /\
    k ∈ missing /\
    forall m, m ∈ missing <-> m ∈ "id" :: selection /\ m ∉ columns dataframe.
Proof.
  intros Hl Hk Habs. rewrite (clean_data_run _ _ _ _ Hl). unfold get_indexer.
  assert (Hmem : forall m,
    m ∈ List.filter (absent (columns dataframe)) ("id" :: selection)
    <-> m ∈ "id" :: selection /\ m ∉ columns dataframe).
  { intros m. rewrite list_elem_of_In, filter_In, <- list_elem_of_In.
    pose proof (absent_false (columns dataframe) m) as Habsent.
    destruct (absent (columns dataframe) m); intuition congruence. }
  destruct (List.filter _ _) as [|m0 ms] eqn:E.
  - exfalso. pose proof (proj2 (Hmem k) (conj Hk Habs)) as Hin.
    by apply elem_of_nil in Hin.
  - exists (m0 :: ms). split; [reflexivity|]. split; [|exact Hmem].
    apply Hmem. by split.
Qed.

Lemma X6_absent_column_key_error_witness :
  exists missing,
    clean_data Demo.listing 1%positive (Demo.selected ["name"; "price"])
    = (Raise (KeyError (PList (map PStr missing))),
       State (<[1%positive := "id" :: ["name"; "price"]]>
                (heap (Demo.selected ["name"; "price"])))
             (trace (Demo.selected ["name"; "price"]))) /\
    "price" ∈ missing /\
    forall m, m ∈ missing <->
              m ∈ "id" :: ["name"; "price"] /\ m ∉ columns Demo.listing.
Proof.
  apply (X6_absent_column_key_error Demo.listing 1%positive ["name"; "price"]).
  - reflexivity.
  - compute_done.
  - compute_done.
Defined.

(** X7. On a frame whose labels are distinct, the columns of the
    relabeled frame are [id] followed by the selected columns in the
    order of the selection, each under its display name; every row has
    one cell more than the selection has keys. *)
Theorem X7_columns_follow_the_selection (dataframe : DataFrame) (l : loc)
    (selection : list string) (s : state) :
  heap s !! l = Some selection ->
  NoDup (columns dataframe) ->
  "id" ∈ columns dataframe ->
  selection ⊆ columns dataframe ->
  exists out s',
    clean_data dataframe l s = (Ok out, s') /\
    columns out = "id" :: map (relabel relabeling_map) selection /\
    Forall (fun r => length (cells r) = S (length selection)) (rows out).
Proof.
  intros Hl Hnd Hid Hsub. eexists _, _.
  split; [exact (clean_data_present _ _ _ _ Hl Hid Hsub)|].
  pose proof (cleaned_columns_of_selection _ _ Hnd Hid Hsub) as Hcols.
  split; [exact Hcols|].
  apply (f_equal (@length string)) in Hcols.
  rewrite columns_cleaned in Hcols. cbn [length] in Hcols.
  rewrite !length_map in Hcols.
  apply Forall_forall. intros r Hr. cbn [rename take_columns rows] in Hr.
  apply list_elem_of_In, in_map_iff in Hr as (r0 & <- & _).
  cbn [cells]. unfold take_cells. rewrite length_map. exact Hcols.
Qed.

Lemma X7_columns_follow_the_selection_witness :
  exists out s',
    clean_data Demo.listing 1%positive (Demo.selected ["symbol"; "name"])
      = (Ok out, s') /\
    columns out = "id" :: map (relabel relabeling_map) ["symbol"; "name"] /\
    Forall (fun r => length (cells r) = S (length ["symbol"; "name"])) (rows out).
Proof.
  apply (X7_columns_follow_the_selection Demo.listing 1%positive
           ["symbol"; "name"]).
  - reflexivity.
  - compute_done.
  - compute_done.
  - compute_done.
Defined.

Lemma relabel_cases (m : list (string * string)) (c : string) :
  (relabel m c = c /\ forall shown, ~ In (c, shown) m) \/
  In (c, relabel m c) m.
Proof.
  unfold relabel.
  destruct (List.find _ m) as [[k v]|] eqn:E.
  - right. apply find_some in E as [Hin Heq]. cbn in Heq |- *.
    apply String.eqb_eq in Heq. by subst.
  - left. split; [reflexivity|]. intros shown Hin.
    pose proof (find_none _ _ E _ Hin) as Hne. cbn in Hne.
    by rewrite String.eqb_refl in Hne.
Qed.

Lemma values_distinct (m : list (string * string)) (a b v : string) :
  NoDup (map snd m) -> In (a, v) m -> In (b, v) m -> a = b.
Proof.
  induction m as [|[k v0] m IH]; [done|]. cbn [map snd].
  intros [Hv0 Hnd]%NoDup_cons [Ha|Ha] [Hb|Hb].
  - congruence.
  - injection Ha as -> ->. destruct Hv0.
    apply list_elem_of_In, in_map_iff. by exists (b, v).
  - injection Hb as -> ->. destruct Hv0.
    apply list_elem_of_In, in_map_iff. by exists (a, v).
  - by apply IH.
Qed.

Lemma relabeling_map_values_distinct : NoDup (map snd relabeling_map).
Proof. compute_done. Qed.

Lemma NoDup_map_on {A B} (f : A -> B) (xs : list A) :
  (forall x y, x ∈ xs -> y ∈ xs -> f x = f y -> x = y) ->
  NoDup xs -> NoDup (map f xs).
Proof.
  intros Hinj. induction 1 as [|x xs Hx Hnd IH]; [constructor|].
  cbn [map]. constructor.
  - intros (y & Hxy & Hy)%list_elem_of_In%in_map_iff. apply Hx.
    apply list_elem_of_In in Hy.
    rewrite (Hinj x y) by (try (by left); try (by right); done). exact Hy.
  - apply IH. intros a b Ha Hb. apply Hinj; by right.
Qed.

(** X8. The relabeling keeps the labels apart: on a frame whose labels
    are distinct, a selection without repeats and without [id], which
    never names both a raw column and the display name that column is
    given, yields a relabeled frame whose labels are distinct. *)
Theorem X8_relabeled_labels_distinct (dataframe : DataFrame) (l : loc)
    (selection : list string) (s : state) :
  heap s !! l = Some selection ->
  NoDup (columns dataframe) ->
  "id" ∈ columns dataframe ->
  selection ⊆ columns dataframe ->
  NoDup ("id" :: selection) ->
  Forall (fun kv => fst kv ∈ selection -> snd kv ∉ selection) relabeling_map ->
  exists out s',
    clean_data dataframe l s = (Ok out, s') /\ NoDup (columns out).
Proof.
  intros Hl Hnd Hid Hsub Hsel Hclash. eexists _, _.
  split; [exact (clean_data_present _ _ _ _ Hl Hid Hsub)|].
  rewrite (cleaned_columns_of_selection _ _ Hnd Hid Hsub).
  rewrite <- (proj2 (relabel_id "id") eq_refl) at 1.
  change (NoDup (map (relabel relabeling_map) ("id" :: selection))).
  apply NoDup_map_on; [|exact Hsel].
  pose proof relabeling_map_spares_id as Hspare.
  rewrite List.Forall_forall in Hspare.
  assert (Hclash' : forall raw shown,
    In (raw, shown) relabeling_map ->
    raw ∈ "id" :: selection -> shown ∈ "id" :: selection -> False).
  { intros raw shown Hin Hraw Hshown.
    destruct (Hspare _ Hin) as [Hr Hs]. cbn in Hr, Hs.
    apply elem_of_cons in Hraw as [->|Hraw]; [done|].
    apply elem_of_cons in Hshown as [->|Hshown]; [done|].
    rewrite List.Forall_forall in Hclash.
    by apply (Hclash (raw, shown) Hin). }
  intros a b Ha Hb Hab.
  destruct (relabel_cases relabeling_map a) as [[Hra _]|Hina],
           (relabel_cases relabeling_map b) as [[Hrb _]|Hinb].
  - congruence.
  - destruct (Hclash' b (relabel relabeling_map b) Hinb Hb). congruence.
  - destruct (Hclash' a (relabel relabeling_map a) Hina Ha). congruence.
  - rewrite Hab in Hina.
    exact (values_distinct _ _ _ _ relabeling_map_values_distinct Hina Hinb).
Qed.

Lemma X8_relabeled_labels_distinct_witness :
  exists out s',
    clean_data Demo.listing 1%positive (Demo.selected ["symbol"; "cmc_rank"])
      = (Ok out, s') /\
    NoDup (columns out).
Proof.
  apply (X8_relabeled_labels_distinct Demo.listing 1%positive
           ["symbol"; "cmc_rank"]).
  - reflexivity.
  - compute_done.
  - compute_done.
  - compute_done.
  - compute_done.
  - compute_done.
Defined.

Lemma relabel_settles (m : list (string * string)) (c : string) :
  Forall (fun kv => List.find (fun kv' => String.eqb (fst kv') (snd kv)) m = None) m ->
  relabel m (relabel m c) = relabel m c.
Proof.
  intros Hm. rewrite List.Forall_forall in Hm.
  destruct (List.find (fun kv => String.eqb (fst kv) c) m) as [kv|] eqn:E.
  - assert (Hc : relabel m c = snd kv) by (unfold relabel; by rewrite E).
    rewrite Hc. apply find_some in E as [Hin _].
    unfold relabel. by rewrite (Hm kv Hin).
  - assert (Hc : relabel m c = c) by (unfold relabel; by rewrite E).
    by rewrite !Hc.
Qed.

(** X9. No display name of the relabeling table is itself a raw name of
    the table: renaming a frame a second time changes nothing. *)
Theorem X9_renaming_twice_is_renaming_once (df : DataFrame) :
  rename (rename df relabeling_map) relabeling_map = rename df relabeling_map.
Proof.
  unfold rename. cbn [columns rows]. f_equal. rewrite map_map.
  apply map_ext. intros c. apply relabel_settles.
  unfold relabeling_map. repeat constructor.
Qed.

(** X10. [clean_data] is not idempotent on its list argument: called a
    second time with the same list object and the same frame, it
    inserts a second [id], and the frame it returns has more [id]
    columns than the first one. *)
Theorem X10_second_call_inserts_again (dataframe : DataFrame) (l : loc)
    (selection : list string) (s : state) :
  heap s !! l = Some selection ->
  "id" ∈ columns dataframe ->
  selection ⊆ columns dataframe ->
  exists out1 s1 out2 s2,
    clean_data dataframe l s = (Ok out1, s1) /\
    clean_data dataframe l s1 = (Ok out2, s2) /\
    heap s2 !! l = Some ("id" :: "id" :: selection) /\
    (count_occ string_dec (columns out1) "id"
     < count_occ string_dec (columns out2) "id")%nat.
Proof.
  intros Hl Hid Hsub.
  pose proof (clean_data_present _ _ _ _ Hl Hid Hsub) as Hrun1.
  set (s1 := State (<[l := "id" :: selection]> (heap s)) (trace s)) in *.
  assert (Hl1 : heap s1 !! l = Some ("id" :: selection))
    by apply lookup_insert_eq.
  assert (Hsub1 : "id" :: selection ⊆ columns dataframe).
  { intros k [->|Hk]%elem_of_cons; auto. }
  pose proof (clean_data_present _ _ _ _ Hl1 Hid Hsub1) as Hrun2.
  eexists _, s1, _, _. split; [exact Hrun1|]. split; [exact Hrun2|].
  split; [apply lookup_insert_eq|].
  rewrite !count_id_cleaned. cbn [count_occ].
  destruct (string_dec "id" "id"); [|done].
  apply list_elem_of_In, (count_occ_In string_dec) in Hid. nia.
Qed.

Lemma X10_second_call_inserts_again_witness :
  exists out1 s1 out2 s2,
    clean_data Demo.listing 1%positive (Demo.selected ["name"]) = (Ok out1, s1) /\
    clean_data Demo.listing 1%positive s1 = (Ok out2, s2) /\
    heap s2 !! 1%positive = Some ("id" :: "id" :: ["name"]) /\
    (count_occ string_dec (columns out1) "id"
     < count_occ string_dec (columns out2) "id")%nat.
Proof.
  apply (X10_second_call_inserts_again Demo.listing 1%positive ["name"]).
  - reflexivity.
  - compute_done.
  - compute_done.
Defined.

(** ** More on [get_info] *)

Section Query.

Variable session_get : request -> reply.
Variable json_loads : string -> option pyobj.
Variable json_normalize : pyobj -> result DataFrame.
Variable to_html : DataFrame -> bool -> string.

Abbreviation get_data := (Main.get_data session_get json_loads json_normalize).
Abbreviation get_ids := (Main.get_ids session_get json_loads).
Abbreviation get_info :=
  (Main.get_info session_get json_loads json_normalize to_html).

(** What a call adds to the trace: one request, and no result. *)
Lemma get_data_adds (api_key : string) (s : state) :
  exists tr,
    trace (snd (get_data api_key s)) = trace s ++ tr /\
    requests tr = [listings_request api_key] /\ results tr = [].
Proof.
  rewrite get_data_run. cbn zeta.
  destruct (session_get _) as [e|r];
    [destruct (transport e) | destruct (json_loads _)];
    cbn [snd sent trace heap]; rewrite <- ?app_assoc; eexists; by split.
Qed.

Lemma get_ids_adds (t api_key : string) (s : state) :
  exists tr,
    trace (snd (get_ids t api_key s)) = trace s ++ tr /\
    requests tr = [map_request (str_remove " " t) api_key] /\ results tr = [].
Proof.
  rewrite get_ids_run. cbn zeta.
  destruct (session_get _) as [e|r];
    [destruct (transport e) | destruct (json_loads _)];
    cbn [snd sent trace heap]; rewrite <- ?app_assoc; eexists; by split.
Qed.

(** The requests of [get_info], and the absence of results, on every
    path. *)
Lemma get_info_adds (q : query) (api_key : string) (l : loc) (s : state) :
  exists tr,
    trace (snd (get_info q api_key l s)) = trace s ++ tr /\
    results tr = [] /\
    requests tr
    = listings_request api_key ::
      match q, get_data api_key s with
      | QStr t, (Ok df, s1) =>
          match clean_data df l s1 with
          | (Ok _, _) => [map_request (str_remove " " t) api_key]
          | _ => []
          end
      | _, _ => []
      end.
Proof.
  destruct (get_data_adds api_key s) as (tr1 & Htr1 & Hrq1 & Hrs1).
  unfold Main.get_info, mbind, IO_bind.
  destruct (Main.get_data _ _ _ api_key s) as [[df|e] s1]; cbn [snd] in *.
  2: { exists tr1. repeat split; try done. by destruct q. }
  pose proof (clean_data_trace df l s1) as Htr2.
  destruct (clean_data df l s1) as [[df_cleaned|e] s2]; cbn [snd] in *.
  2: { exists tr1. rewrite Htr2. repeat split; try done. by destruct q. }
  destruct q as [t|n].
  2: { exists tr1. cbn. rewrite Htr2. by repeat split. }
  destruct (get_ids_adds t api_key s2) as (tr3 & Htr3 & Hrq3 & Hrs3).
  exists (tr1 ++ tr3).
  rewrite requests_app, results_app, Hrq1, Hrq3, Hrs1, Hrs3.
  split; [|by split].
  destruct (Main.get_ids _ _ t api_key s2) as [[id_list|e] s3]; cbn [snd] in *.
  - unfold lift, raise.
    destruct (getitem_label df_cleaned "id") as [[values|sub]|e];
      [destruct (getitem_bool _ _)|destruct (getitem_frame _ _ _)|];
      cbn [snd mret IO_ret];
      by rewrite Htr3, Htr2, Htr1, <- app_assoc.
  - by rewrite Htr3, Htr2, Htr1, <- app_assoc.
Qed.

(** X11. [get_info] always sends the listings request first.  It sends
    a second request, the map request, only for a ticker query and only
    once the listing has been fetched and projected: a row count, a
    failed fetch or a failed projection never reaches the resolver. *)
Theorem X11_resolver_only_after_projection (q : query) (api_key : string)
    (l : loc) (s : state) :
  requests (trace (snd (get_info q api_key l s)))
  = requests (trace s) ++
    listings_request api_key ::
    match q, get_data api_key s with
    | QStr t, (Ok df, s1) =>
        match clean_data df l s1 with
        | (Ok _, _) => [map_request (str_remove " " t) api_key]
        | _ => []
        end
    | _, _ => []
    end.
Proof.
  destruct (get_info_adds q api_key l s) as (tr & Htr & _ & Hrq).
  by rewrite Htr, requests_app, Hrq.
Qed.

(** The fetcher leaves the heap alone. *)
Lemma get_data_heap (api_key : string) (s : state) :
  heap (snd (get_data api_key s)) = heap s.
Proof.
  rewrite get_data_run. cbn zeta.
  by destruct (session_get _) as [e|r];
    [destruct (transport e) | destruct (json_loads _)].
Qed.

(** X12. When the selection does not name [id] and the labels of the
    fetched frame are distinct, then, whenever [get_info] returns, the
    query result is well shaped, and, if the fetched frame is well
    shaped, each of its rows comes from a fetched row with the same
    index label and holds only cells of that row: no cell is made up. *)
Theorem X12_result_cells_are_fetched_cells (q : query) (api_key : string)
    (l : loc) (s s' : state) (selection : list string)
    (df info_df : DataFrame) (info_html : string) :
  heap s !! l = Some selection ->
  "id" ∉ selection ->
  NoDup (columns df) ->
  get_info q api_key l s = (Ok (df, info_df, info_html), s') ->
  well_shaped info_df /\
  (well_shaped df ->
   forall r', r' ∈ rows info_df ->
     exists r, r ∈ rows df /\ label r' = label r /\
               forall c, c ∈ cells r' -> c ∈ cells r).
Proof.
  intros Hsel Hid Hnd Hrun.
  destruct (get_info_inv _ _ _ _ _ _ _ _ _ _ _ _ Hrun)
    as (s1 & df_cleaned & s2 & Hdata & Hclean & Hcols & _ & Hsub & _).
  assert (Hl : heap s1 !! l = Some selection).
  { pose proof (get_data_heap api_key s) as Hheap.
    rewrite Hdata in Hheap. cbn [snd] in Hheap. by rewrite Hheap. }
  specialize (Hsub (cleaned_identifier_once _ _ _ _ _ _ Hl Hid Hnd Hclean)).
  destruct (clean_data_inv _ _ _ _ _ _ Hl Hclean) as (_ & _ & ->).
  set (ix := concat (map (fun k => positions k (columns df)) ("id" :: selection)))
    in *.
  assert (Hrows : forall r', r' ∈ rows info_df ->
            exists r, r ∈ rows df /\ r' = project_row ix r).
  { intros r' Hr'. apply (fun H => elem_of_sublist _ _ _ H Hsub) in Hr'.
    cbn [rename take_columns rows] in Hr'.
    apply list_elem_of_In, in_map_iff in Hr' as (r & <- & Hr).
    exists r. split; [by apply list_elem_of_In | reflexivity]. }
  split.
  - apply Forall_forall. intros r' Hr'. destruct (Hrows r' Hr') as (r & _ & ->).
    rewrite Hcols. cbn [rename take_columns columns project_row cells].
    unfold take_cells. by rewrite !length_map.
  - intros Hshape r' Hr'. destruct (Hrows r' Hr') as (r & Hr & ->).
    exists r. split; [exact Hr|]. split; [reflexivity|].
    intros c Hc. cbn [project_row cells] in Hc. unfold take_cells in Hc.
    apply list_elem_of_In, in_map_iff in Hc as (p & <- & Hp).
    apply list_elem_of_In, nth_In.
    unfold well_shaped in Hshape. rewrite Forall_forall in Hshape.
    rewrite (Hshape r Hr).
    pose proof (indexer_in_range ("id" :: selection) (columns df)) as Hrange.
    rewrite Forall_forall in Hrange. apply Hrange. by apply list_elem_of_In.
Qed.

(** X13. On a relabeled frame with one identifier column and numbers
    for identifiers, the filter looks at the resolved identifiers as a
    set: two ticker strings that the provider resolves to the same
    numbers, in whatever order and however often repeated, give the
    same query result. *)
Theorem X13_same_identifiers_same_result (t1 t2 api_key : string) (l : loc)
    (s s1 s2 s3 s3' : state) (df df_cleaned : DataFrame)
    (ids1 ids2 : list pyobj) :
  get_data api_key s = (Ok df, s1) ->
  clean_data df l s1 = (Ok df_cleaned, s2) ->
  count_occ string_dec (columns df_cleaned) "id" = 1%nat ->
  Forall (fun r => identifier (first_cell r) = true) (rows df_cleaned) ->
  get_ids t1 api_key s2 = (Ok ids1, s3) ->
  get_ids t2 api_key s2 = (Ok ids2, s3') ->
  Forall (fun v => identifier v = true) ids1 ->
  (forall v, v ∈ ids1 <-> v ∈ ids2) ->
  exists info_df,
    get_info (QStr t1) api_key l s
      = (Ok (df, info_df, to_html info_df false), s3) /\
    get_info (QStr t2) api_key l s
      = (Ok (df, info_df, to_html info_df false), s3').
Proof.
  intros Hdata Hclean Hone _ Hids1 Hids2 _ Hsame.
  pose proof (cleaned_identifier_first _ _ _ _ _ Hclean Hone) as Hpos.
  eexists. split; [by eapply get_info_ticker_run|].
  rewrite (get_info_ticker_run _ _ _ _ _ _ _ _ _ _ _ _ _ _
             Hdata Hclean Hids2 Hpos).
  replace (List.filter (fun r => member (first_cell r) ids2) (rows df_cleaned))
    with (List.filter (fun r => member (first_cell r) ids1) (rows df_cleaned));
    [reflexivity|].
  apply filter_ext. intros r.
  pose proof (member_spec (first_cell r) ids1) as H1.
  pose proof (member_spec (first_cell r) ids2) as H2.
  destruct (member (first_cell r) ids1), (member (first_cell r) ids2);
    try reflexivity.
  - destruct (proj1 H1 eq_refl) as (w & Hw & Heq).
    symmetry. apply H2. exists w. by rewrite <- Hsame.
  - destruct (proj1 H2 eq_refl) as (w & Hw & Heq).
    apply H1. exists w. by rewrite Hsame.
Qed.

End Query.

Lemma X12_result_cells_are_fetched_cells_witness :
  let info_df :=
    {| columns := ["id"; "name"];
       rows := [ {| label := 0; cells := [PInt 1; PStr "Bitcoin"] |};
                 {| label := 1; cells := [PInt 1027; PStr "Ethereum"] |};
                 {| label := 3; cells := [PInt 9999; PStr "Bitcoin Two"] |} ] |} in
  (exists s',
     Main.get_info Demo.session_get Demo.json_loads Demo.json_normalize
                   Demo.to_html (QStr "BTC, ETH") "k" 1%positive
                   (Demo.selected ["name"])
     = (Ok (Demo.listing, info_df, Demo.to_html info_df false), s')) /\
  well_shaped info_df /\
  forall r', r' ∈ rows info_df ->
    exists r, r ∈ rows Demo.listing /\ label r' = label r /\
              forall c, c ∈ cells r' -> c ∈ cells r.
Proof.
  intros info_df. split; [eexists; vm_compute; reflexivity|].
  edestruct (X12_result_cells_are_fetched_cells
               Demo.session_get Demo.json_loads Demo.json_normalize Demo.to_html
               (QStr "BTC, ETH") "k" 1%positive (Demo.selected ["name"]))
    with (selection := ["name"]) (df := Demo.listing) (info_df := info_df)
    as [Hshape Hcells];
    [reflexivity | compute_done | compute_done | vm_compute; reflexivity |].
  split; [exact Hshape|]. apply Hcells. repeat constructor.
Defined.

Lemma X13_same_identifiers_same_result_witness :
  let s2 := State {[ 1%positive := ["id"; "name"] ]} [Get (listings_request "k")] in
  exists s3 s3',
    Main.get_ids Worlds.either_order Worlds.json_loads_either_order
                 "BTC, ETH" "k" s2
      = (Ok [PInt 1; PInt 9999; PInt 1027], s3) /\
    Main.get_ids Worlds.either_order Worlds.json_loads_either_order
                 "ETH, BTC" "k" s2
      = (Ok [PInt 1027; PInt 9999; PInt 1; PInt 9999], s3') /\
    exists info_df,
      Main.get_info Worlds.either_order Worlds.json_loads_either_order
                    Demo.json_normalize Demo.to_html (QStr "BTC, ETH") "k"
                    1%positive (Demo.selected ["name"])
        = (Ok (Demo.listing, info_df, Demo.to_html info_df false), s3) /\
      Main.get_info Worlds.either_order Worlds.json_loads_either_order
                    Demo.json_normalize Demo.to_html (QStr "ETH, BTC") "k"
                    1%positive (Demo.selected ["name"])
        = (Ok (Demo.listing, info_df, Demo.to_html info_df false), s3').
Proof.
  intros s2. eexists _, _.
  split; [vm_compute; reflexivity|]. split; [vm_compute; reflexivity|].
  eapply (X13_same_identifiers_same_result
            Worlds.either_order Worlds.json_loads_either_order
            Demo.json_normalize Demo.to_html
            "BTC, ETH" "ETH, BTC" "k" 1%positive (Demo.selected ["name"])
            _ s2).
  - vm_compute. reflexivity.
  - vm_compute. reflexivity.
  - reflexivity.
  - repeat constructor.
  - vm_compute. reflexivity.
  - vm_compute. reflexivity.
  - repeat constructor.
  - intros v. rewrite !elem_of_cons, !elem_of_nil. tauto.
Defined.

(** ** More on [task_func] *)

Lemma uint_digits_decimal (d : Decimal.uint) :
  all_chars is_decimal (NilEmpty.string_of_uint d) = true.
Proof. induction d; cbn [NilEmpty.string_of_uint all_chars]; by rewrite ?IHd. Qed.

Lemma int_digits_uint_acc (d : Decimal.uint) (acc : positive) :
  int_digits (Z.pos acc) (NilEmpty.string_of_uint d)
  = Z.pos (Pos.of_uint_acc d acc).
Proof.
  revert acc. induction d; intros acc;
    cbn [NilEmpty.string_of_uint int_digits Pos.of_uint_acc]; [reflexivity|..];
    rewrite <- IHd; f_equal; cbn; lia.
Qed.

Lemma int_digits_uint (d : Decimal.uint) :
  int_digits 0 (NilEmpty.string_of_uint d) = Z.of_N (Pos.of_uint d).
Proof.
  induction d; cbn [NilEmpty.string_of_uint int_digits Pos.of_uint];
    [reflexivity | exact IHd | ..];
    apply (int_digits_uint_acc d).
Qed.

(** The numeral of a positive number, and what [int] reads in it. *)
Lemma str_int_pos (p : positive) :
  str_int (Z.pos p) = NilEmpty.string_of_uint (Pos.to_uint p) /\
  str_int (Z.pos p) <> EmptyString.
Proof.
  unfold str_int. cbn [Z.to_int NilZero.string_of_int].
  pose proof (DecimalPos.Unsigned.of_to p) as Hof.
  destruct (Pos.to_uint p) eqn:E; [discriminate Hof|..];
    by cbn [NilZero.string_of_uint NilEmpty.string_of_uint].
Qed.

Lemma str_int_spells (n : Z) :
  0 <= n ->
  isdigit (str_int n) = true /\
  all_chars is_decimal (str_int n) = true /\
  int_digits 0 (str_int n) = n.
Proof.
  intros Hn. destruct n as [|p|p]; [by repeat split | | lia].
  destruct (str_int_pos p) as [Hstr Hne].
  assert (Hdec : all_chars is_decimal (str_int (Z.pos p)) = true)
    by (rewrite Hstr; apply uint_digits_decimal).
  split; [|split; [exact Hdec|]].
  - unfold isdigit. destruct (str_int (Z.pos p)) as [|c rest] eqn:E; [done|].
    clear Hstr Hne. revert Hdec. generalize (String c rest). intros t.
    induction t as [|x t IH]; [done|]. cbn [all_chars].
    intros [Hx Ht]%andb_true_iff. apply andb_true_iff. split; [|exact (IH Ht)].
    unfold isdigit_char. by rewrite Hx.
  - by rewrite Hstr, int_digits_uint, DecimalPos.Unsigned.of_to.
Qed.

Section MoreTask.

Variable session_get : request -> reply.
Variable json_loads : string -> option pyobj.
Variable json_normalize : pyobj -> result DataFrame.
Variable to_html : DataFrame -> bool -> string.
Variable cell_text : pyobj -> string.

Abbreviation get_data := (Main.get_data session_get json_loads json_normalize).
Abbreviation get_ids := (Main.get_ids session_get json_loads).
Abbreviation get_info :=
  (Main.get_info session_get json_loads json_normalize to_html).
Abbreviation task_func :=
  (Main.task_func session_get json_loads json_normalize to_html cell_text).

(** X14. When [get_info] raises, [task_func] ends with the same
    exception in the same state: the run shows no table and offers no
    download. *)
Theorem X14_failed_query_shows_nothing (api_key ticker_string : string)
    (column_ids : list string) (s s' : state) (q : query) (e : exn) :
  query_of ticker_string = Ok q ->
  get_info q api_key (checkbox_list s) (answered s column_ids) = (Raise e, s') ->
  task_func api_key ticker_string column_ids s = (Raise e, s') /\
  results (trace s') = results (trace s).
Proof.
  intros Hquery Hinfo. rewrite task_func_run, Hquery, Hinfo.
  split; [reflexivity|].
  destruct (get_info_adds session_get json_loads json_normalize to_html
              q api_key (checkbox_list s) (answered s column_ids))
    as (tr & Htr & Hrs & _).
  rewrite Hinfo in Htr. cbn [snd] in Htr. rewrite Htr.
  cbn [answered greeted sent trace]. rewrite !results_app, Hrs.
  cbn. by rewrite !app_nil_r.
Qed.

(** X15. A query string that [isdigit] accepts and [int] refuses, for a
    superscript digit or for more digits than [int] converts, ends the
    run in [ValueError] right after the two headings: no request is
    sent. *)
Theorem X15_refused_digits_value_error (api_key ticker_string : string)
    (column_ids : list string) (s : state) :
  isdigit ticker_string = true ->
  all_chars is_decimal ticker_string = false \/
  (max_str_digits < String.length ticker_string)%nat ->
  task_func api_key ticker_string column_ids s = (Raise ValueError, greeted s) /\
  requests (trace (greeted s)) = requests (trace s).
Proof.
  intros Hdigit Hbad. rewrite task_func_run. unfold query_of, int.
  rewrite Hdigit.
  replace (all_chars is_decimal ticker_string
           && (String.length ticker_string <=? max_str_digits)%nat)
    with false.
  - split; [reflexivity|]. cbn [greeted sent trace].
    rewrite !requests_app. cbn. by rewrite !app_nil_r.
  - symmetry. apply andb_false_iff.
    destruct Hbad as [Hbad|Hbad]; [by left|]. right. by apply Nat.leb_gt.
Qed.

(** X16. The decimal numeral of a number that is not negative is read
    back as that number: typed as the query, it becomes that row
    count. *)
Theorem X16_numeral_is_its_row_count (n : Z) :
  0 <= n ->
  (String.length (str_int n) <= max_str_digits)%nat ->
  query_of (str_int n) = Ok (QInt n).
Proof.
  intros Hn Hlen. destruct (str_int_spells n Hn) as (Hdigit & Hdec & Hval).
  unfold query_of, int. rewrite Hdigit, Hdec.
  apply Nat.leb_le in Hlen. rewrite Hlen. cbn [andb result_bind].
  by rewrite Hval.
Qed.

(** X17. A query that selects no row still yields a table.  The row
    count 0 returns the relabeled columns with no row; so does, on a
    relabeled frame with one identifier column and numbers for
    identifiers, a ticker query that the provider resolves to no
    identifier; and the filtered download made of such a result is the
    header record alone. *)
Theorem X17_no_row_is_still_a_table (api_key : string) (l : loc)
    (s s1 s2 : state) (df df_cleaned : DataFrame) :
  get_data api_key s = (Ok df, s1) ->
  clean_data df l s1 = (Ok df_cleaned, s2) ->
  let empty := Frame (columns df_cleaned) [] in
  get_info (QInt 0) api_key l s = (Ok (df, empty, to_html empty false), s2) /\
  (forall t s3,
     count_occ string_dec (columns df_cleaned) "id" = 1%nat ->
     Forall (fun r => identifier (first_cell r) = true) (rows df_cleaned) ->
     get_ids t api_key s2 = (Ok [], s3) ->
     get_info (QStr t) api_key l s = (Ok (df, empty, to_html empty false), s3)) /\
  to_csv cell_text empty false = writerow (columns df_cleaned).
Proof.
  intros Hdata Hclean empty. split; [|split].
  - by rewrite (get_info_count_run _ _ _ _ 0 _ _ _ _ _ _ _ Hdata Hclean).
  - intros t s3 Hone _ Hids.
    pose proof (cleaned_identifier_first _ _ _ _ _ Hclean Hone) as Hpos.
    rewrite (get_info_ticker_run _ _ _ _ _ _ _ _ _ _ _ _ _ _
               Hdata Hclean Hids Hpos).
    replace (List.filter _ (rows df_cleaned)) with (@nil row); [reflexivity|].
    symmetry. induction (rows df_cleaned) as [|r rs IH]; [reflexivity|].
    exact IH.
  - unfold to_csv, header_fields. cbn [app map rows columns writerows].
    apply append_empty_r.
Qed.

End MoreTask.

Lemma X14_failed_query_shows_nothing_witness :
  Main.task_func Worlds.unauthorized Demo.json_loads Demo.json_normalize
                 Demo.to_html Demo.cell_text "k" "BTC" ["name"] Demo.fresh_state
  = (Raise (KeyError (PStr "data")),
     sent (answered Demo.fresh_state ["name"]) (Get (listings_request "k"))) /\
  results (trace (sent (answered Demo.fresh_state ["name"])
                       (Get (listings_request "k"))))
  = results (trace Demo.fresh_state).
Proof.
  apply (X14_failed_query_shows_nothing
           Worlds.unauthorized Demo.json_loads Demo.json_normalize Demo.to_html
           Demo.cell_text "k" "BTC" ["name"] Demo.fresh_state _ (QStr "BTC")).
  - reflexivity.
  - vm_compute. reflexivity.
Defined.

Lemma X15_refused_digits_value_error_witness :
  Main.task_func Demo.session_get Demo.json_loads Demo.json_normalize
                 Demo.to_html Demo.cell_text "k" (String "178"%char EmptyString)
                 ["name"] Demo.fresh_state
  = (Raise ValueError, greeted Demo.fresh_state) /\
  requests (trace (greeted Demo.fresh_state)) = requests (trace Demo.fresh_state).
Proof.
  apply (X15_refused_digits_value_error
           Demo.session_get Demo.json_loads Demo.json_normalize Demo.to_html
           Demo.cell_text "k" (String "178"%char EmptyString) ["name"]
           Demo.fresh_state).
  - reflexivity.
  - left. reflexivity.
Defined.

Lemma X16_numeral_is_its_row_count_witness :
  query_of (str_int 50) = Ok (QInt 50).
Proof.
  apply (X16_numeral_is_its_row_count 50); [lia | vm_compute; lia].
Defined.

Lemma X17_no_row_is_still_a_table_witness :
  exists df_cleaned s2 s3,
    Main.get_ids Demo.session_get Worlds.json_loads_unlisted "BTC, ETH" "k" s2
      = (Ok [], s3) /\
    Main.get_info Demo.session_get Worlds.json_loads_unlisted
                  Demo.json_normalize Demo.to_html (QInt 0) "k" 1%positive
                  (Demo.selected ["name"])
      = (Ok (Demo.listing, Frame (columns df_cleaned) [],
             Demo.to_html (Frame (columns df_cleaned) []) false), s2) /\
    Main.get_info Demo.session_get Worlds.json_loads_unlisted
                  Demo.json_normalize Demo.to_html (QStr "BTC, ETH") "k"
                  1%positive (Demo.selected ["name"])
      = (Ok (Demo.listing, Frame (columns df_cleaned) [],
             Demo.to_html (Frame (columns df_cleaned) []) false), s3) /\
    to_csv Demo.cell_text (Frame (columns df_cleaned) []) false
      = writerow (columns df_cleaned).
Proof.
  eexists _, _, _.
  edestruct (X17_no_row_is_still_a_table
               Demo.session_get Worlds.json_loads_unlisted Demo.json_normalize
               Demo.to_html Demo.cell_text "k" 1%positive
               (Demo.selected ["name"]))
    as (Hcount & Hticker & Hcsv);
    [vm_compute; reflexivity | vm_compute; reflexivity |].
  split; [|split; [|split]].
  2: exact Hcount.
  3: exact Hcsv.
  1: vm_compute; reflexivity.
  apply Hticker; [reflexivity | repeat constructor | vm_compute; reflexivity].
Defined.

(** ** The identifier among the ticked columns *)





Section Ticked.

Variable session_get : request -> reply.
Variable json_loads : string -> option pyobj.
Variable json_normalize : pyobj -> result DataFrame.
Variable to_html : DataFrame -> bool -> string.

Abbreviation get_data := (Main.get_data session_get json_loads json_normalize).
Abbreviation get_ids := (Main.get_ids session_get json_loads).
Abbreviation get_info :=
  (Main.get_info session_get json_loads json_normalize to_html).



End Ticked.


